(** * Annotation payload validation: [h/schemas/annotation.py]

    A shallow embedding of the create and update validation pipelines of
    the annotations API ([CreateAnnotationSchema.validate],
    [UpdateAnnotationSchema.validate]) and of their helpers
    ([_remove_protected_fields], [_shared], [_target_selectors],
    [_document]), followed by the properties the specification states
    about them.

    Python values are JSON values; a Python [dict] is a finite map with
    string keys, so that two dicts are equal exactly when they have the
    same keys and values, as in Python.  Exceptions are explicit: every
    function that can raise returns a [result]. *)

From Stdlib Require Import ZArith Ascii.
From stdpp Require Import gmap strings list fin_maps.

(** ** JSON values *)

(** The decoded request body.  A string is held as the UTF-8 encoding of
    its characters, so that every Unicode string has its [string];
    numbers are the integers (the code under study only ever asks of a
    number whether it is zero). *)
#[warnings="-register-all"]
Inductive json : Type :=
  | JNull
  | JBool (b : bool)
  | JNum (n : Z)
  | JStr (s : string)
  | JArr (items : list json)
  | JObj (fields : gmap string json).

(** ** Exceptions *)

Inductive exn : Type :=
  | SchemaValidationError          (* ValidationError raised by the structural schema *)
  | ValidationError (msg : string) (* h.schemas.base.ValidationError raised by the pipelines *)
  | KeyError
  | IndexError
  | TypeError
  | AttributeError
  | Unmodelled.                    (* a Python behaviour this development does not describe *)

Inductive result (A : Type) : Type :=
  | Ok (a : A)
  | Raise (e : exn).
Arguments Ok {A} a.
Arguments Raise {A} e.

(** Sequencing: an exception raised by [r] propagates.  With this
    instance [x ← r; k] is stdpp's notation for [mbind (fun x => k) r]. *)
#[global] Instance result_bind : MBind result :=
  fun A B (k : A -> result B) (r : result A) =>
    match r with
    | Ok a => k a
    | Raise e => Raise e
    end.

(** ** Python primitives on JSON values *)

Module Py.

Definition is_empty (s : string) : bool :=
  match s with
  | EmptyString => true
  | String _ _ => false
  end.

(** The value of a byte. *)
Definition byte (c : ascii) : N := N_of_ascii c.

(** The six payload bits of a continuation byte [10xxxxxx]. *)
Definition continuation (c : ascii) : option N :=
  let b := byte c in
  if ((0x80 <=? b) && (b <? 0xC0))%N then Some (b - 0x80)%N else None.

(** A code point that the encoding in so many bytes is for: not below
    [least], no surrogate, not beyond U+10FFFF. *)
Definition encodes (least cp : N) : bool :=
  ((least <=? cp) && negb ((0xD800 <=? cp) && (cp <=? 0xDFFF))
   && (cp <=? 0x10FFFF))%N.

(** The first character of a string: its code point and what follows
    it.  A string that starts with no well-formed character has none. *)
Definition next_char (s : string) : option (N * string) :=
  match s with
  | EmptyString => None
  | String c0 s0 =>
      let b0 := byte c0 in
      if (b0 <? 0x80)%N then Some (b0, s0)
      else if ((0xC0 <=? b0) && (b0 <? 0xE0))%N then
        match s0 with
        | String c1 s1 =>
            match continuation c1 with
            | Some x1 =>
                let cp := ((b0 - 0xC0) * 64 + x1)%N in
                if encodes 0x80 cp then Some (cp, s1) else None
            | None => None
            end
        | _ => None
        end
      else if ((0xE0 <=? b0) && (b0 <? 0xF0))%N then
        match s0 with
        | String c1 (String c2 s2) =>
            match continuation c1, continuation c2 with
            | Some x1, Some x2 =>
                let cp := (((b0 - 0xE0) * 64 + x1) * 64 + x2)%N in
                if encodes 0x800 cp then Some (cp, s2) else None
            | _, _ => None
            end
        | _ => None
        end
      else if ((0xF0 <=? b0) && (b0 <? 0xF8))%N then
        match s0 with
        | String c1 (String c2 (String c3 s3)) =>
            match continuation c1, continuation c2, continuation c3 with
            | Some x1, Some x2, Some x3 =>
                let cp := ((((b0 - 0xF0) * 64 + x1) * 64 + x2) * 64 + x3)%N in
                if encodes 0x10000 cp then Some (cp, s3) else None
            | _, _, _ => None
            end
        | _ => None
        end
      else None
  end.

(** [unicode.isspace] of a character: the white space of Unicode. *)
Definition isspace (cp : N) : bool :=
  (((0x09 <=? cp) && (cp <=? 0x0D)) || ((0x1C <=? cp) && (cp <=? 0x20))
   || (cp =? 0x85) || (cp =? 0xA0) || (cp =? 0x1680)
   || ((0x2000 <=? cp) && (cp <=? 0x200A))
   || (cp =? 0x2028) || (cp =? 0x2029) || (cp =? 0x202F) || (cp =? 0x205F)
   || (cp =? 0x3000))%N.

(** What follows the white-space character that the string starts with,
    when it starts with one. *)
Definition space_prefix (s : string) : option string :=
  match next_char s with
  | Some (cp, rest) => if isspace cp then Some rest else None
  | None => None
  end.

Fixpoint lstrip_loop (fuel : nat) (s : string) : string :=
  match fuel with
  | O => s
  | S fuel' =>
      match space_prefix s with
      | Some rest => lstrip_loop fuel' rest
      | None => s
      end
  end.

(** [s.lstrip()]; a string has no more characters than bytes. *)
Definition lstrip (s : string) : string := lstrip_loop (String.length s) s.

(** [s.rstrip()]: [s] up to where nothing but white space follows. *)
Fixpoint rstrip (s : string) : string :=
  match s with
  | EmptyString => EmptyString
  | String c s' =>
      if is_empty (lstrip s) then EmptyString else String c (rstrip s')
  end.

(** [s.strip()] *)
Definition strip (s : string) : string := rstrip (lstrip s).

(** [v.strip()] on an arbitrary value: only strings have the method. *)
Definition strip_method (v : json) : result string :=
  match v with
  | JStr s => Ok (strip s)
  | _ => Raise AttributeError
  end.

(** Truth value of a JSON value, as tested by [if], [not], [and], [or]. *)
Definition truthy (v : json) : bool :=
  match v with
  | JNull => false
  | JBool b => b
  | JNum n => negb (n =? 0)%Z
  | JStr s => negb (is_empty s)
  | JArr l => match l with [] => false | _ :: _ => true end
  | JObj m => negb (bool_decide (m = ∅))
  end.

Fixpoint starts_with (p s : string) : bool :=
  match p, s with
  | EmptyString, _ => true
  | String a p', String b s' => bool_decide (a = b) && starts_with p' s'
  | String _ _, EmptyString => false
  end.

Fixpoint has_substring (p s : string) : bool :=
  starts_with p s ||
  match s with
  | EmptyString => false
  | String _ s' => has_substring p s'
  end.

Definition is_str (s : string) (v : json) : bool :=
  match v with
  | JStr t => bool_decide (t = s)
  | _ => false
  end.

(** [key in d] on a dict. *)
Definition has_key (key : string) (d : gmap string json) : bool :=
  match d !! key with
  | Some _ => true
  | None => false
  end.

(** [key in container], for a string [key]. *)
Definition contains (key : string) (container : json) : result bool :=
  match container with
  | JObj m => Ok (has_key key m)
  | JArr l => Ok (existsb (is_str key) l)
  | JStr s => Ok (has_substring key s)
  | _ => Raise TypeError
  end.

(** [container[key]], for a string [key]. *)
Definition getitem (container : json) (key : string) : result json :=
  match container with
  | JObj m => match m !! key with
              | Some v => Ok v
              | None => Raise KeyError
              end
  | _ => Raise TypeError
  end.

(** [s[0]], for a string that is not empty: its first character. *)
Definition first_char (s : string) : string :=
  match next_char s with
  | Some (_, rest) => String.substring 0 (String.length s - String.length rest) s
  | None => String.substring 0 1 s
  end.

(** [container[0]] *)
Definition getitem0 (container : json) : result json :=
  match container with
  | JArr (x :: _) => Ok x
  | JArr [] => Raise IndexError
  | JStr (String c s) => Ok (JStr (first_char (String c s)))
  | JStr EmptyString => Raise IndexError
  | JObj _ => Raise KeyError
  | _ => Raise TypeError
  end.

(** [v == l] where [l] is a list of strings: a string is equal to no
    value of another type, so the comparison is elementwise equality
    with string values. *)
Fixpoint eq_items (items : list json) (l : list string) : bool :=
  match items, l with
  | [], [] => true
  | v :: items', s :: l' => is_str s v && eq_items items' l'
  | _, _ => false
  end.

Definition eq_str_list (v : json) (l : list string) : bool :=
  match v with
  | JArr items => eq_items items l
  | _ => false
  end.

(** [d.pop(key, default)]: the value and the dict afterwards. *)
Definition pop (key : string) (dflt : json) (d : gmap string json)
  : json * gmap string json :=
  (match d !! key with Some v => v | None => dflt end, delete key d).

(** [v.pop(...)] exists for dicts (and, with one argument less, for
    lists). *)
Definition as_dict (v : json) : result (gmap string json) :=
  match v with
  | JObj m => Ok m
  | JArr _ => Raise TypeError
  | _ => Raise AttributeError
  end.

End Py.

(** ** The structural schema *)

(** The keywords of JSON Schema (draft 4) that [AnnotationSchema.schema]
    uses.  A keyword constrains only the values of the type it speaks
    about and accepts every other value. *)
Module Schema.

Definition t : Type := json -> bool.

Definition type_string : t :=
  fun v => match v with JStr _ => true | _ => false end.

Definition type_array : t :=
  fun v => match v with JArr _ => true | _ => false end.

Definition type_object : t :=
  fun v => match v with JObj _ => true | _ => false end.

(** ['items': s] *)
Definition items (s : t) : t :=
  fun v => match v with JArr l => forallb s l | _ => true end.

(** One entry [k: s] of ['properties']. *)
Definition property (k : string) (s : t) : t :=
  fun v =>
    match v with
    | JObj m => match m !! k with Some x => s x | None => true end
    | _ => true
    end.

(** One entry of ['required']. *)
Definition required (k : string) : t :=
  fun v => match v with JObj m => Py.has_key k m | _ => true end.

(** One entry [re: s] of ['patternProperties'], the regular expression
    given by the set of keys it finds a match in. *)
Definition pattern_property (re : string -> bool) (s : t) : t :=
  fun v =>
    match v with
    | JObj m =>
        forallb (fun kx => if re (fst kx) then s (snd kx) else true)
                (map_to_list m)
    | _ => true
    end.

(** ['pattern': re] *)
Definition pattern (re : string -> bool) : t :=
  fun v => match v with JStr s => re s | _ => true end.

(** A schema object: every keyword in it must accept the value. *)
Definition all_of (keywords : list t) : t :=
  fun v => forallb (fun s => s v) keywords.

(** ['enum': l], for a list [l] of strings: the value must be equal to
    one of them. *)
Definition enum (l : list string) : t :=
  fun v => existsb (fun s => Py.is_str s v) l.

End Schema.

(** Regular expressions of the schema, as [re.search] decides them. *)
Module Re.

Definition newline : ascii := ascii_of_nat 10.

(** [$] at the end of a pattern: the end of the string, or just before
    a newline that ends the string. *)
Definition at_end (rest : string) : bool :=
  match rest with
  | EmptyString => true
  | String c EmptyString => bool_decide (c = newline)
  | _ => false
  end.

Fixpoint drop_prefix (p s : string) : option string :=
  match p, s with
  | EmptyString, _ => Some s
  | String a p', String b s' =>
      if bool_decide (a = b) then drop_prefix p' s' else None
  | String _ _, EmptyString => None
  end.

(** [^(p1|p2|...)] followed by [k]. *)
Definition alternatives (ps : list string) (k : string -> bool) (s : string) : bool :=
  existsb (fun p => match drop_prefix p s with
                    | Some rest => k rest
                    | None => false
                    end) ps.

(** [.*$]: any characters but newlines, then the end. *)
Fixpoint any_then_end (s : string) : bool :=
  at_end s ||
  match s with
  | EmptyString => false
  | String c s' => negb (bool_decide (c = newline)) && any_then_end s'
  end.

(** [.+$] *)
Definition some_then_end (s : string) : bool :=
  match s with
  | EmptyString => false
  | String c s' => negb (bool_decide (c = newline)) && any_then_end s'
  end.

(** [^(admin|delete|read|update)$] *)
Definition action (s : string) : bool :=
  alternatives ["admin"; "delete"; "read"; "update"] at_end s.

(** [^(acct:|group:).+$] *)
Definition principal (s : string) : bool :=
  alternatives ["acct:"; "group:"] some_then_end s.

End Re.

Module AnnotationSchema.
Import Schema.

Definition string_array : Schema.t :=
  all_of [type_array; items type_string].

Definition document : Schema.t :=
  all_of
    [ type_object
    ; property "dc"
        (all_of [type_object; property "identifier" string_array])
    ; property "highwire"
        (all_of [ type_object
                ; property "doi" string_array
                ; property "pdf_url" string_array ])
    ; property "link"
        (all_of [ type_array
                ; items (all_of [ type_object
                                ; property "href" type_string
                                ; property "type" type_string
                                ; required "href" ]) ]) ].

Definition permissions : Schema.t :=
  all_of
    [ type_object
    ; pattern_property Re.action
        (all_of [ type_array
                ; items (all_of [type_string; pattern Re.principal]) ])
    ; required "read" ].

Definition target : Schema.t :=
  all_of
    [ type_array
    ; items
        (all_of
           [ type_object
           ; property "selector"
               (all_of [ type_array
                       ; items (all_of [ type_object
                                       ; property "type" type_string
                                       ; required "type" ]) ]) ]) ].

(** [AnnotationSchema.schema] *)
Definition schema : Schema.t :=
  all_of
    [ type_object
    ; property "document" document
    ; property "group" type_string
    ; property "permissions" permissions
    ; property "references" string_array
    ; property "tags" string_array
    ; property "target" target
    ; property "text" type_string
    ; property "uri" type_string ].

(** Modelled from the spec: [JSONSchema.validate] of [h.schemas.base],
    the base class of [AnnotationSchema], is not part of the sources at
    hand.  Following section 4.1 of the specification it returns the
    payload when the payload conforms to the schema and fails with a
    validation error otherwise; the returned structure is the caller's
    own to mutate. *)
Definition validate (data : json) : result json :=
  if schema data then Ok data else Raise SchemaValidationError.

End AnnotationSchema.

(** [SearchParamsSchema.schema], the schema of the query parameters of
    [/api/search].  Its ['type': 'object'] line is commented out and its
    ['required'] list is empty; the descriptions constrain nothing. *)
Module SearchParamsSchema.
Import Schema.

Definition schema : Schema.t :=
  all_of
    [ property "_separate_replies" type_string
    ; property "sort"
        (all_of [ type_string
                ; enum ["created"; "updated"; "group"; "id"; "user"] ])
    ; property "limit" type_string
    ; property "order" (all_of [type_string; enum ["asc"; "desc"]])
    ; property "offset" type_string
    ; property "group" type_string
    ; property "quote" type_string
    ; property "references" type_string
    ; property "tag" type_string
    ; property "tags" type_string
    ; property "text" type_string
    ; property "uri" type_string
    ; property "url" type_string
    ; property "any" type_string
    ; property "user" type_string ].

End SearchParamsSchema.

(** ** The helpers of the pipelines *)

(** [d.pop(key)], which raises when the key is missing. *)
Definition pop_required (key : string) (d : gmap string json)
  : result (json * gmap string json) :=
  match d !! key with
  | Some v => Ok (v, delete key d)
  | None => Raise KeyError
  end.

(** A [for] loop whose body may raise, threading the state [S]. *)
Fixpoint for_each {S A : Type} (l : list A) (body : A -> S -> result S) (s : S)
  : result S :=
  match l with
  | [] => Ok s
  | x :: l' => s' ← body x s; for_each l' body s'
  end.

Definition protected_fields : list string :=
  ["created"; "updated"; "user"; "id"; "links"; "flagged"; "hidden";
   "moderation"; "user_info"].

(** [_remove_protected_fields(appstruct)]; the dict is mutated in place,
    here the dict afterwards is returned. *)
Definition _remove_protected_fields (appstruct : gmap string json)
  : gmap string json :=
  foldl (fun d field => snd (Py.pop field JNull d)) appstruct protected_fields.

(** ['group:{id}'.format(id=groupid)]; the text that [format] produces
    for a value that is not a string is not described here. *)
Definition format_group (groupid : json) : result string :=
  match groupid with
  | JStr g => Ok ("group:" +:+ g)
  | _ => Raise Unmodelled
  end.

(** [_shared(permissions, groupid)] *)
Definition _shared (permissions groupid : json) : result json :=
  read ← Py.getitem permissions "read";
  expected ← format_group groupid;
  Ok (JBool (Py.eq_str_list read [expected])).

(** [_target_selectors(targets)] *)
Definition _target_selectors (targets : json) : result json :=
  found ← (if Py.truthy targets
           then first ← Py.getitem0 targets; Py.contains "selector" first
           else Ok false);
  if (found : bool)
  then first ← Py.getitem0 targets; Py.getitem first "selector"
  else Ok (JArr []).

(** The two functions of [h.util.document_claims] that [_document]
    calls, [document_uris_from_data(document, claimant=...)] and
    [document_metas_from_data(document, claimant=...)].  They live
    outside the sources at hand and are taken as given; each receives its
    own deep copy of the document, so neither sees what the other does to
    its argument. *)
Record document_claims : Type := {
  document_uris_from_data : json -> json -> json;
  document_metas_from_data : json -> json -> json;
}.

Section Pipelines.

Context (claims : document_claims).

(** [_document(document, claimant)] *)
Definition _document (document claimant : json) : json :=
  let document := if Py.truthy document then document else JObj ∅ in
  let document_uri_dicts := document_uris_from_data claims document claimant in
  let document_meta_dicts := document_metas_from_data claims document claimant in
  JObj (<["document_uri_dicts" := document_uri_dicts]>
          (<["document_meta_dicts" := document_meta_dicts]> ∅)).

(** ['uri: ' + _("'uri' is a required property")]; the translation
    string factory leaves the text as it is. *)
Definition uri_required : string := "uri: " +:+ "'uri' is a required property".

(** The pair of dicts a pipeline works on: the output under
    construction and what is left of the validated payload. *)
Definition dicts : Type := gmap string json * gmap string json.

(** [CreateAnnotationSchema(request).validate(data)], where
    [authenticated_userid] is [request.authenticated_userid]. *)
Definition create (authenticated_userid : json) (data : json)
  : result (gmap string json) :=
  appstruct ← AnnotationSchema.validate data;
  appstruct ← Py.as_dict appstruct;
  let new_appstruct : gmap string json := ∅ in
  let appstruct := _remove_protected_fields appstruct in
  let new_appstruct := <["userid" := authenticated_userid]> new_appstruct in
  let '(uri, appstruct) := Py.pop "uri" (JStr "") appstruct in
  uri ← Py.strip_method uri;
  if negb (Py.truthy (JStr uri)) then Raise (ValidationError uri_required) else
  let new_appstruct := <["target_uri" := JStr uri]> new_appstruct in
  let '(text, appstruct) := Py.pop "text" (JStr "") appstruct in
  let new_appstruct := <["text" := text]> new_appstruct in
  let '(tags, appstruct) := Py.pop "tags" (JArr []) appstruct in
  let new_appstruct := <["tags" := tags]> new_appstruct in
  let '(group, appstruct) := Py.pop "group" (JStr "__world__") appstruct in
  let new_appstruct := <["groupid" := group]> new_appstruct in
  let '(references, appstruct) := Py.pop "references" (JArr []) appstruct in
  let new_appstruct := <["references" := references]> new_appstruct in
  '(new_appstruct, appstruct) ←
    (if Py.has_key "permissions" appstruct
     then '(permissions, appstruct) ← pop_required "permissions" appstruct;
          groupid ← Py.getitem (JObj new_appstruct) "groupid";
          shared ← _shared permissions groupid;
          Ok (<["shared" := shared]> new_appstruct, appstruct)
     else Ok (<["shared" := JBool false]> new_appstruct, appstruct)) : result dicts;
  '(new_appstruct, appstruct) ←
    (if Py.has_key "target" appstruct
     then '(target, appstruct) ← pop_required "target" appstruct;
          selectors ← _target_selectors target;
          Ok (<["target_selectors" := selectors]> new_appstruct, appstruct)
     else Ok (new_appstruct, appstruct)) : result dicts;
  references ← Py.getitem (JObj new_appstruct) "references";
  let new_appstruct :=
    if Py.truthy references && Py.has_key "groupid" new_appstruct
    then delete "groupid" new_appstruct
    else new_appstruct in
  let '(document, appstruct) := Py.pop "document" (JObj ∅) appstruct in
  claimant ← Py.getitem (JObj new_appstruct) "target_uri";
  let new_appstruct := <["document" := _document document claimant]> new_appstruct in
  let new_appstruct := <["extra" := JObj appstruct]> new_appstruct in
  Ok new_appstruct.

Definition immutable_fields : list string :=
  ["group"; "groupid"; "userid"; "references"].

(** [new_appstruct.get(key, default)] *)
Definition get_default (key : string) (dflt : json) (d : gmap string json) : json :=
  match d !! key with
  | Some v => v
  | None => dflt
  end.

(** The body of the loop over ['text'] and ['tags']. *)
Definition copy_if_present (key : string) (s : dicts) : result dicts :=
  let '(new_appstruct, appstruct) := s in
  if Py.has_key key appstruct
  then '(v, appstruct) ← pop_required key appstruct;
       Ok (<[key := v]> new_appstruct, appstruct)
  else Ok (new_appstruct, appstruct).

(** [UpdateAnnotationSchema(request, existing_target_uri, groupid).validate(data)] *)
Definition update (existing_target_uri groupid : json) (data : json)
  : result (gmap string json) :=
  appstruct ← AnnotationSchema.validate data;
  appstruct ← Py.as_dict appstruct;
  let new_appstruct : gmap string json := ∅ in
  let appstruct := _remove_protected_fields appstruct in
  let appstruct :=
    foldl (fun d key => snd (Py.pop key (JStr "") d)) appstruct immutable_fields in
  '(new_appstruct, appstruct) ←
    (if Py.has_key "uri" appstruct
     then '(uri, appstruct) ← pop_required "uri" appstruct;
          new_uri ← Py.strip_method uri;
          if negb (Py.truthy (JStr new_uri))
          then Raise (ValidationError uri_required)
          else Ok (<["target_uri" := JStr new_uri]> new_appstruct, appstruct)
     else Ok (new_appstruct, appstruct)) : result dicts;
  '(new_appstruct, appstruct) ←
    (if Py.has_key "permissions" appstruct
     then '(permissions, appstruct) ← pop_required "permissions" appstruct;
          shared ← _shared permissions groupid;
          Ok (<["shared" := shared]> new_appstruct, appstruct)
     else Ok (new_appstruct, appstruct)) : result dicts;
  '(new_appstruct, appstruct) ←
    (if Py.has_key "target" appstruct
     then '(target, appstruct) ← pop_required "target" appstruct;
          selectors ← _target_selectors target;
          Ok (<["target_selectors" := selectors]> new_appstruct, appstruct)
     else Ok (new_appstruct, appstruct)) : result dicts;
  '(new_appstruct, appstruct) ←
    for_each ["text"; "tags"] copy_if_present (new_appstruct, appstruct);
  '(new_appstruct, appstruct) ←
    (if Py.has_key "document" appstruct
     then '(document, appstruct) ← pop_required "document" appstruct;
          let claimant := get_default "target_uri" existing_target_uri new_appstruct in
          Ok (<["document" := _document document claimant]> new_appstruct, appstruct)
     else Ok (new_appstruct, appstruct)) : result dicts;
  let new_appstruct := <["extra" := JObj appstruct]> new_appstruct in
  Ok new_appstruct.

End Pipelines.

(** * Vocabulary of the properties *)

(** A payload that passes structural validation.  Only objects do (see
    [validate_Ok] below). *)
Definition valid (d : gmap string json) : Prop :=
  AnnotationSchema.validate (JObj d) = Ok (JObj d).

(** What the pipelines rely on from the schema. *)
Record shaped (d : gmap string json) : Prop := {
  shaped_uri v : d !! "uri" = Some v -> exists s, v = JStr s;
  shaped_group v : d !! "group" = Some v -> exists g, v = JStr g;
  shaped_references v : d !! "references" = Some v -> exists l, v = JArr l;
  shaped_permissions v :
    d !! "permissions" = Some v ->
    exists p r, v = JObj p /\ p !! "read" = Some (JArr r);
  shaped_target v :
    d !! "target" = Some v ->
    exists l, v = JArr l /\ forall t, head l = Some t -> exists m, t = JObj m;
}.

(** The dict [d] after [del d[k]] for every [k] of [keys] that it has. *)
Definition without (keys : list string) (d : gmap string json) : gmap string json :=
  foldl (fun d k => delete k d) d keys.

(** [m[k] = v] when there is a [v], nothing otherwise. *)
Definition set_opt (k : string) (o : option json) (m : gmap string json)
  : gmap string json :=
  match o with
  | Some v => <[k := v]> m
  | None => m
  end.

(** [d.get(key, dflt)] on the payload the client sent. *)
Definition field_or (key : string) (dflt : json) (d : gmap string json) : json :=
  match d !! key with
  | Some v => v
  | None => dflt
  end.

(** The group the client asked for, or the public one. *)
Definition group_of (d : gmap string json) : json :=
  field_or "group" (JStr "__world__") d.

(** The payload has no [uri], or one with nothing but white space. *)
Definition uri_missing_or_blank (d : gmap string json) : bool :=
  match d !! "uri" with
  | Some (JStr s) => Py.is_empty (Py.strip s)
  | Some _ => false
  | None => true
  end.

(** The payload has a [uri] with nothing but white space. *)
Definition blank_uri (d : gmap string json) : bool :=
  match d !! "uri" with
  | Some (JStr s) => Py.is_empty (Py.strip s)
  | _ => false
  end.

Definition trimmed_uri (d : gmap string json) : option string :=
  match d !! "uri" with
  | Some (JStr s) => Some (Py.strip s)
  | _ => None
  end.

(** The payload is a reply. *)
Definition is_reply (d : gmap string json) : Prop :=
  exists r rs, d !! "references" = Some (JArr (r :: rs)).

(** The keys each pipeline pops from the payload, in the order it pops
    them, and the keys it sets in its output. *)
Definition create_consumed : list string :=
  ["uri"; "text"; "tags"; "group"; "references"; "permissions"; "target";
   "document"].

Definition create_outputs : list string :=
  ["userid"; "target_uri"; "text"; "tags"; "groupid"; "references"; "shared";
   "target_selectors"; "document"; "extra"].

Definition update_consumed : list string :=
  immutable_fields
  ++ ["uri"; "permissions"; "target"; "text"; "tags"; "document"].

Definition update_outputs : list string :=
  ["target_uri"; "shared"; "target_selectors"; "text"; "tags"; "document";
   "extra"].

(** The output of a successful [create], key by key. *)
Record create_post (claims : document_claims) (uid : json)
    (d : gmap string json) (s : string) (out : gmap string json) : Prop := {
  cp_userid : out !! "userid" = Some uid;
  cp_target_uri : out !! "target_uri" = Some (JStr (Py.strip s));
  cp_text : out !! "text" = Some (field_or "text" (JStr "") d);
  cp_tags : out !! "tags" = Some (field_or "tags" (JArr []) d);
  cp_references : out !! "references" = Some (field_or "references" (JArr []) d);
  cp_groupid :
    out !! "groupid" =
      if Py.truthy (field_or "references" (JArr []) d) then None
      else Some (group_of d);
  cp_shared :
    exists b, out !! "shared" = Some (JBool b) /\
      match d !! "permissions" with
      | Some p => _shared p (group_of d) = Ok (JBool b)
      | None => b = false
      end;
  cp_target_selectors :
    match d !! "target" with
    | Some t => exists sel, _target_selectors t = Ok sel /\
                            out !! "target_selectors" = Some sel
    | None => out !! "target_selectors" = None
    end;
  cp_document :
    out !! "document" =
      Some (_document claims (field_or "document" (JObj ∅) d) (JStr (Py.strip s)));
  cp_extra :
    out !! "extra" = Some (JObj (without (protected_fields ++ create_consumed) d));
  cp_others k : k ∉ create_outputs -> out !! k = None;
}.

(** The output of a successful [update], key by key. *)
Record update_post (claims : document_claims) (existing : json)
    (groupid : string) (d : gmap string json) (out : gmap string json) : Prop := {
  up_target_uri : out !! "target_uri" = JStr <$> trimmed_uri d;
  up_shared :
    match d !! "permissions" with
    | Some p => exists b, _shared p (JStr groupid) = Ok (JBool b) /\
                          out !! "shared" = Some (JBool b)
    | None => out !! "shared" = None
    end;
  up_target_selectors :
    match d !! "target" with
    | Some t => exists sel, _target_selectors t = Ok sel /\
                            out !! "target_selectors" = Some sel
    | None => out !! "target_selectors" = None
    end;
  up_text : out !! "text" = d !! "text";
  up_tags : out !! "tags" = d !! "tags";
  up_document :
    out !! "document" =
      (fun doc => _document claims doc
                    (default existing (JStr <$> trimmed_uri d)))
        <$> d !! "document";
  up_extra :
    out !! "extra" = Some (JObj (without (protected_fields ++ update_consumed) d));
  up_others k : k ∉ update_outputs -> out !! k = None;
}.

(** ** Sample payloads *)

Definition example_claims : document_claims := {|
  document_uris_from_data := fun document claimant => JArr [claimant];
  document_metas_from_data := fun document claimant => JArr [document];
|}.

Definition example_permissions : gmap string json :=
  list_to_map
    [ ("read", JArr [JStr "group:abc"]);
      ("admin", JArr [JStr "acct:jo@example.com"]) ].

Definition example_target : json :=
  JArr
    [ JObj (list_to_map
        [ ("selector",
           JArr [JObj (list_to_map [("type", JStr "TextQuoteSelector")])]);
          ("source", JStr "http://example.com/page") ]);
      JObj (list_to_map
        [ ("selector", JArr [JObj (list_to_map [("type", JStr "X")])]) ]) ].

(** A top-level annotation in group [abc], with forged server fields, the
    fields an update ignores, and a field the schema does not know. *)
Definition example_payload : gmap string json :=
  list_to_map
    [ ("uri", JStr "  http://example.com/page ");
      ("text", JStr "a note");
      ("group", JStr "abc");
      ("permissions", JObj example_permissions);
      ("target", example_target);
      ("document", JObj (list_to_map [("title", JArr [JStr "A page"])]));
      ("id", JStr "forged");
      ("user", JStr "acct:mallory@example.com");
      ("groupid", JStr "xyz");
      ("userid", JStr "acct:mallory@example.com");
      ("colour", JStr "red") ].

Definition example_reply : gmap string json :=
  <["references" := JArr [JStr "parent"]]> example_payload.

Definition example_without_uri : gmap string json :=
  delete "uri" example_payload.

Definition example_user : json := JStr "acct:jo@example.com".

Definition example_stored_uri : json := JStr "http://example.com/stored".

(** ** Strings and their characters *)

(** A Unicode scalar value. *)
Definition scalar (cp : N) : bool := Py.encodes 0 cp.

Definition to_byte (n : N) : ascii := ascii_of_N n.

(** The UTF-8 encoding of a character. *)
Definition utf8_char (cp : N) : string :=
  (if cp <? 0x80 then String (to_byte cp) EmptyString
   else if cp <? 0x800 then
     String (to_byte (0xC0 + cp / 64))
       (String (to_byte (0x80 + cp mod 64)) EmptyString)
   else if cp <? 0x10000 then
     String (to_byte (0xE0 + cp / 4096))
       (String (to_byte (0x80 + (cp / 64) mod 64))
          (String (to_byte (0x80 + cp mod 64)) EmptyString))
   else
     String (to_byte (0xF0 + cp / 262144))
       (String (to_byte (0x80 + (cp / 4096) mod 64))
          (String (to_byte (0x80 + (cp / 64) mod 64))
             (String (to_byte (0x80 + cp mod 64)) EmptyString))))%N.

(** The UTF-8 encoding of a string of characters. *)
Definition utf8 (u : list N) : string :=
  foldr (fun cp s => utf8_char cp +:+ s) EmptyString u.

(** [strip] read on the characters themselves. *)
Fixpoint drop_spaces (u : list N) : list N :=
  match u with
  | [] => []
  | cp :: u' => if Py.isspace cp then drop_spaces u' else u
  end.

Definition strip_chars (u : list N) : list N :=
  reverse (drop_spaces (reverse (drop_spaces u))).

(** A [uri] of white space only: an em space, an ideographic space, a
    line separator and a no-break space. *)
Definition example_blank_uri : gmap string json :=
  {["uri" := JStr (utf8 [0x2003; 0x3000; 0x2028; 0xA0]%N)]}.

(** A [uri] with such white space around it. *)
Definition example_padded_uri : gmap string json :=
  {["uri" := JStr (utf8 [0x2003; 0x3000]%N +:+ "http://example.com/page"
                   +:+ utf8 [0x2028; 0x85; 0x20]%N)]}.

(** ** Vocabulary of the further properties *)

(** The keys [AnnotationSchema.schema] constrains. *)
Definition schema_keys : list string :=
  ["document"; "group"; "permissions"; "references"; "tags"; "target";
   "text"; "uri"].

(** The keys [SearchParamsSchema.schema] constrains. *)
Definition search_keys : list string :=
  ["_separate_replies"; "sort"; "limit"; "order"; "offset"; "group"; "quote";
   "references"; "tag"; "tags"; "text"; "uri"; "url"; "any"; "user"].

(** A value is not a JSON object. *)
Definition not_object (v : json) : Prop :=
  match v with
  | JObj _ => False
  | _ => True
  end.

(** An array of strings. *)
Definition string_list (v : json) : Prop :=
  exists l : list string, v = JArr (JStr <$> l).

(** An array of selector objects, each with a string [type]. *)
Definition selector_list (v : json) : Prop :=
  exists l, v = JArr l
            /\ Forall (fun x => exists m t, x = JObj m /\ m !! "type" = Some (JStr t)) l.

(** A reader or writer of a permissions list: [acct:] or [group:] and
    something after it. *)
Definition principal (s : string) : Prop :=
  exists rest, rest <> "" /\ (s = "acct:" +:+ rest \/ s = "group:" +:+ rest).

(** The payload is a reply, as [create] tests it. *)
Definition reply (d : gmap string json) : bool :=
  Py.truthy (field_or "references" (JArr []) d).

Definition example_with_empty_document : gmap string json :=
  <["document" := JObj ∅]> example_payload.

(** What the schema says about the fields that [create] copies. *)
Record typed (d : gmap string json) : Prop := {
  typed_text v : d !! "text" = Some v -> exists s, v = JStr s;
  typed_tags v : d !! "tags" = Some v -> string_list v;
  typed_references v : d !! "references" = Some v -> string_list v;
  typed_target v :
    d !! "target" = Some v ->
    exists l, v = JArr l
      /\ forall t, head l = Some t ->
           exists m, t = JObj m
             /\ forall sel, m !! "selector" = Some sel -> selector_list sel;
}.

(** * What the schema guarantees *)

Lemma validate_Ok (data appstruct : json) :
  AnnotationSchema.validate data = Ok appstruct ->
  exists d, data = JObj d /\ appstruct = JObj d /\ valid d.
Proof.
  unfold valid, AnnotationSchema.validate.
  destruct (AnnotationSchema.schema data) eqn:Hs; [|done].
  intros [= <-]. destruct data; try discriminate Hs.
  eexists; split; [done|]. by rewrite Hs.
Qed.

Lemma valid_schema (d : gmap string json) :
  valid d <-> AnnotationSchema.schema (JObj d) = true.
Proof.
  unfold valid, AnnotationSchema.validate.
  destruct (AnnotationSchema.schema _); naive_solver.
Qed.

Lemma property_inv k s (d : gmap string json) v :
  Schema.property k s (JObj d) = true -> d !! k = Some v -> s v = true.
Proof. unfold Schema.property. intros H Hk. by rewrite Hk in H. Qed.

Lemma type_string_inv v : Schema.type_string v = true -> exists s, v = JStr s.
Proof. destruct v; naive_solver. Qed.

Lemma type_array_inv v : Schema.type_array v = true -> exists l, v = JArr l.
Proof. destruct v; naive_solver. Qed.

Lemma type_object_inv v : Schema.type_object v = true -> exists m, v = JObj m.
Proof. destruct v; naive_solver. Qed.

Lemma permissions_inv v :
  AnnotationSchema.permissions v = true ->
  exists p r, v = JObj p /\ p !! "read" = Some (JArr r).
Proof.
  unfold AnnotationSchema.permissions, Schema.all_of. cbn [forallb].
  rewrite !andb_true_iff. intros (Ho & Hpat & Hreq & _).
  apply type_object_inv in Ho as [p ->].
  unfold Schema.required, Py.has_key in Hreq.
  destruct (p !! "read") as [x|] eqn:Hread; [|done].
  unfold Schema.pattern_property in Hpat.
  rewrite forallb_forall in Hpat.
  specialize (Hpat ("read", x)).
  rewrite <- list_elem_of_In, elem_of_map_to_list in Hpat.
  specialize (Hpat Hread). cbn [fst snd] in Hpat.
  replace (Re.action "read") with true in Hpat by (by vm_compute).
  unfold Schema.all_of in Hpat. cbn [forallb] in Hpat.
  rewrite !andb_true_iff in Hpat. destruct Hpat as (Ha & _).
  apply type_array_inv in Ha as [r ->]. eauto.
Qed.

Lemma target_inv v :
  AnnotationSchema.target v = true ->
  exists l, v = JArr l /\ forall t, head l = Some t -> exists m, t = JObj m.
Proof.
  unfold AnnotationSchema.target, Schema.all_of. cbn [forallb].
  rewrite !andb_true_iff. intros (Ha & Hit & _).
  apply type_array_inv in Ha as [l ->]. exists l; split; [done|].
  intros t Ht. destruct l as [|t' l]; [done|]. injection Ht as ->.
  cbn [Schema.items forallb] in Hit. rewrite !andb_true_iff in Hit.
  destruct Hit as [[Ho _] _]. by apply type_object_inv.
Qed.

Lemma valid_shaped (d : gmap string json) : valid d -> shaped d.
Proof.
  rewrite valid_schema.
  unfold AnnotationSchema.schema, Schema.all_of. cbn [forallb].
  rewrite !andb_true_iff.
  intros (_ & Hdoc & Hgroup & Hperm & Hrefs & Htags & Htarget & Htext & Huri & _).
  split; intros v Hv.
  - apply type_string_inv. eapply property_inv; [exact Huri|done].
  - apply type_string_inv. eapply property_inv; [exact Hgroup|done].
  - eapply property_inv in Hrefs; [|done].
    unfold AnnotationSchema.string_array, Schema.all_of in Hrefs.
    cbn [forallb] in Hrefs. apply andb_true_iff in Hrefs as [Ha _].
    by apply type_array_inv.
  - apply permissions_inv. eapply property_inv; [exact Hperm|done].
  - apply target_inv. eapply property_inv; [exact Htarget|done].
Qed.

(** The schema looks at eight keys only. *)
Lemma valid_agree (d d' : gmap string json) :
  (forall k, k ∈ create_consumed -> d' !! k = d !! k) ->
  valid d -> valid d'.
Proof.
  intros Hk. rewrite !valid_schema.
  unfold AnnotationSchema.schema, Schema.all_of, Schema.property.
  cbn [forallb Schema.type_object].
  rewrite !Hk by (unfold create_consumed; set_solver). done.
Qed.

(** * Dicts with keys removed or conditionally set *)

Lemma lookup_without (keys : list string) (d : gmap string json) (k : string) :
  without keys d !! k = if bool_decide (k ∈ keys) then None else d !! k.
Proof.
  unfold without. revert d. induction keys as [|k' keys IH]; intros d; cbn [foldl].
  - by rewrite bool_decide_eq_false_2 by apply not_elem_of_nil.
  - rewrite IH. destruct (decide (k ∈ keys)) as [Hin|Hnin].
    + rewrite !bool_decide_eq_true_2; [done | by right | done].
    + rewrite (bool_decide_eq_false_2 _ Hnin), lookup_delete.
      destruct (decide (k' = k)) as [->|Hne].
      * by rewrite bool_decide_eq_true_2 by left.
      * rewrite bool_decide_eq_false_2; [done|]. rewrite elem_of_cons. by intros [->|?].
Qed.

Lemma lookup_without_ne (keys : list string) (d : gmap string json) (k : string) :
  bool_decide (k ∈ keys) = false -> without keys d !! k = d !! k.
Proof. intros H. by rewrite lookup_without, H. Qed.

Lemma lookup_without_in (keys : list string) (d : gmap string json) (k : string) :
  k ∈ keys -> without keys d !! k = None.
Proof. intros H. by rewrite lookup_without, bool_decide_eq_true_2. Qed.

Lemma lookup_without_notin (keys : list string) (d : gmap string json) (k : string) :
  k ∉ keys -> without keys d !! k = d !! k.
Proof. intros H. by rewrite lookup_without, bool_decide_eq_false_2. Qed.

Lemma without_delete (keys : list string) (d : gmap string json) (k : string) :
  k ∈ keys -> without keys (delete k d) = without keys d.
Proof.
  intros Hk. apply map_eq. intros i. rewrite !lookup_without.
  case_bool_decide as Hi; [done|]. apply lookup_delete_ne. by intros ->.
Qed.

Lemma remove_protected_without (d : gmap string json) :
  _remove_protected_fields d = without protected_fields d.
Proof. reflexivity. Qed.

Lemma lookup_set_opt_ne (k k' : string) o (m : gmap string json) :
  k <> k' -> set_opt k o m !! k' = m !! k'.
Proof. intros. destruct o; [by apply lookup_insert_ne | done]. Qed.

Lemma lookup_set_opt_fresh (k : string) o (m : gmap string json) :
  m !! k = None -> set_opt k o m !! k = o.
Proof. intros. destruct o; [by apply lookup_insert_eq | done]. Qed.

(** Lookups in the dicts that a run of a pipeline leaves behind. *)
Ltac look :=
  repeat first
    [ rewrite lookup_delete_eq
    | rewrite lookup_delete_ne by done
    | rewrite lookup_insert_eq
    | rewrite lookup_insert_ne by done
    | rewrite lookup_set_opt_ne by done
    | rewrite lookup_empty
    | rewrite lookup_without_ne by (by vm_compute) ].

(** One step of a pipeline: sequencing and the primitives whose argument
    is known. *)
Ltac run :=
  cbn [mbind result_bind Py.as_dict Py.pop Py.strip_method Py.getitem
       Py.truthy Py.is_empty negb andb fst snd for_each].

(** A key that is none of the outputs is not set. *)
Ltac others :=
  let k := fresh "k" in
  let Hk := fresh "Hk" in
  intros k Hk;
  repeat first
    [ rewrite lookup_insert_ne by (intros <-; apply Hk; by repeat constructor)
    | rewrite lookup_set_opt_ne by (intros <-; apply Hk; by repeat constructor)
    | rewrite lookup_delete_ne by (intros <-; apply Hk; by repeat constructor) ];
  apply lookup_empty.

(** * The helpers *)

Lemma eq_str_list_true (v : json) (s : string) :
  Py.eq_str_list v [s] = true <-> v = JArr [JStr s].
Proof.
  split; [|by intros ->; cbn; rewrite bool_decide_eq_true_2].
  destruct v as [| | | |items|]; try done.
  destruct items as [|x [|y items]]; cbn; try done.
  - rewrite andb_true_r. destruct x; cbn; try done.
    by intros ->%bool_decide_eq_true.
  - by destruct (Py.is_str s x).
Qed.

Lemma shared_total (p : gmap string json) (r : json) (g : string) :
  p !! "read" = Some r ->
  _shared (JObj p) (JStr g) = Ok (JBool (Py.eq_str_list r ["group:" +:+ g])).
Proof. intros H. unfold _shared. cbn. by rewrite H. Qed.

Lemma target_selectors_first (t : gmap string json) (rest : list json) :
  _target_selectors (JArr (JObj t :: rest))
  = Ok (field_or "selector" (JArr []) t).
Proof.
  unfold _target_selectors, field_or. cbn. unfold Py.has_key.
  by destruct (t !! "selector").
Qed.

Lemma target_selectors_total (l : list json) :
  (forall t, head l = Some t -> exists m, t = JObj m) ->
  exists sel, _target_selectors (JArr l) = Ok sel.
Proof.
  intros H. destruct l as [|t l]; [by eexists|].
  destruct (H t) as [m ->]; [done|].
  rewrite target_selectors_first. eauto.
Qed.

Lemma copy_if_present_eq key (new app : gmap string json) :
  copy_if_present key (new, app)
  = Ok (set_opt key (app !! key) new, delete key app).
Proof.
  unfold copy_if_present, Py.has_key, pop_required.
  destruct (app !! key) eqn:H; [done|]. by rewrite delete_id.
Qed.

(** * Running the pipelines on a valid payload *)

Section Runs.

Context (claims : document_claims).

Lemma group_of_str (d : gmap string json) :
  shaped d -> exists g, group_of d = JStr g.
Proof.
  intros Hsh. unfold group_of, field_or.
  destruct (d !! "group") as [v|] eqn:Hg; [|by eexists].
  destruct (shaped_group _ Hsh _ Hg) as [g ->]. by eexists.
Qed.

Lemma create_run uid (d : gmap string json) s :
  valid d ->
  d !! "uri" = Some (JStr s) ->
  Py.strip s <> "" ->
  exists out, create claims uid (JObj d) = Ok out
              /\ create_post claims uid d s out.
Proof.
  intros Hv Hu Hs. pose proof (valid_shaped _ Hv) as Hsh.
  unfold create. rewrite Hv. run. rewrite remove_protected_without. look.
  rewrite Hu. run.
  destruct (Py.strip s) as [|c s'] eqn:Hstrip; [done|]. run.
  rewrite <- Hstrip. look.
  fold (field_or "text" (JStr "") d) (field_or "tags" (JArr []) d)
       (field_or "group" (JStr "__world__") d)
       (field_or "references" (JArr []) d).
  fold (group_of d).
  (* the permissions block *)
  lazymatch goal with
  | |- exists out, mbind _ ?blk = _ /\ _ =>
      lazymatch blk with
      | (if _ then _ else Ok (_ ?new, ?app)) =>
          assert (exists b,
            blk = Ok (<["shared" := JBool b]> new, delete "permissions" app) /\
            match d !! "permissions" with
            | Some p => _shared p (group_of d) = Ok (JBool b)
            | None => b = false
            end) as (b & -> & Hb)
      end
  end.
  { unfold Py.has_key, pop_required. look.
    destruct (d !! "permissions") as [p|] eqn:Hp.
    - destruct (shaped_permissions _ Hsh _ Hp) as (p' & r & -> & Hr).
      destruct (group_of_str _ Hsh) as [g Hg].
      rewrite Hg. run. rewrite (shared_total _ _ _ Hr). run. by eexists.
    - exists false. split; [|done].
      by rewrite (delete_id _ "permissions") by (by look). }
  run.
  (* the target block *)
  lazymatch goal with
  | |- exists out, mbind _ ?blk = _ /\ _ =>
      lazymatch blk with
      | (if _ then _ else Ok (?new, ?app)) =>
          assert (exists o,
            blk = Ok (set_opt "target_selectors" o new, delete "target" app) /\
            match d !! "target" with
            | Some t => exists sel, _target_selectors t = Ok sel /\ o = Some sel
            | None => o = None
            end) as (osel & -> & Hsel)
      end
  end.
  { unfold Py.has_key, pop_required. look.
    destruct (d !! "target") as [t|] eqn:Ht.
    - destruct (shaped_target _ Hsh _ Ht) as (l & -> & Hl).
      destruct (target_selectors_total _ Hl) as [sel Hsel].
      run. rewrite Hsel. run. exists (Some sel). eauto.
    - exists None. split; [|done].
      by rewrite (delete_id _ "target") by (by look). }
  run. look. run.
  change (delete "document" (delete "target" (delete "permissions"
           (delete "references" (delete "group" (delete "tags" (delete "text"
             (delete "uri" (without protected_fields d)))))))))
    with (without (protected_fields ++ create_consumed) d).
  fold (field_or "document" (JObj ∅) d).
  unfold Py.has_key. look.
  destruct (Py.truthy (field_or "references" (JArr []) d)) eqn:Hrefs;
    cbn [andb]; look; run;
    (eexists; split; [reflexivity|]);
    (split; look; rewrite ?lookup_set_opt_fresh by (by look);
      [ done | done | done | done | done
      | by rewrite ?Hrefs
      | by exists b
      | done
      | done | done | others ]).
Qed.

Lemma create_blank uid (d : gmap string json) :
  valid d ->
  uri_missing_or_blank d = true ->
  create claims uid (JObj d) = Raise (ValidationError uri_required).
Proof.
  intros Hv Hu. unfold create. rewrite Hv. run.
  rewrite remove_protected_without. look.
  unfold uri_missing_or_blank in Hu.
  destruct (d !! "uri") as [[]|]; try done; run.
  by destruct (Py.strip s).
Qed.

Lemma create_ok uid (d : gmap string json) :
  valid d ->
  uri_missing_or_blank d = false ->
  exists s out,
    d !! "uri" = Some (JStr s) /\ Py.strip s <> "" /\
    create claims uid (JObj d) = Ok out /\ create_post claims uid d s out.
Proof.
  intros Hv Hu. unfold uri_missing_or_blank in Hu.
  destruct (d !! "uri") as [u|] eqn:Hd; [|done].
  destruct (shaped_uri _ (valid_shaped _ Hv) _ Hd) as [s ->].
  assert (Py.strip s <> "") as Hs by (by destruct (Py.strip s)).
  destruct (create_run uid d s Hv Hd Hs) as (out & ? & ?). by exists s, out.
Qed.

Lemma update_run existing groupid (d : gmap string json) :
  valid d ->
  blank_uri d = false ->
  exists out, update claims existing (JStr groupid) (JObj d) = Ok out
              /\ update_post claims existing groupid d out.
Proof.
  intros Hv Hu. pose proof (valid_shaped _ Hv) as Hsh.
  unfold update. rewrite Hv. run.
  change (foldl _ (_remove_protected_fields d) immutable_fields)
    with (without (protected_fields ++ immutable_fields) d).
  (* the uri block *)
  lazymatch goal with
  | |- exists out, mbind _ ?blk = _ /\ _ =>
      lazymatch blk with
      | (if _ then _ else Ok (?new, ?app)) =>
          assert (blk = Ok (set_opt "target_uri" (JStr <$> trimmed_uri d) new,
                            delete "uri" app)) as ->
      end
  end.
  { unfold Py.has_key, pop_required, trimmed_uri. look.
    destruct (d !! "uri") as [u|] eqn:Hd.
    - destruct (shaped_uri _ Hsh _ Hd) as [s ->]. run.
      unfold blank_uri in Hu. rewrite Hd in Hu.
      by destruct (Py.strip s).
    - by rewrite (delete_id _ "uri") by (by look). }
  run.
  (* the permissions block *)
  lazymatch goal with
  | |- exists out, mbind _ ?blk = _ /\ _ =>
      lazymatch blk with
      | (if _ then _ else Ok (?new, ?app)) =>
          assert (exists o,
            blk = Ok (set_opt "shared" o new, delete "permissions" app) /\
            match d !! "permissions" with
            | Some p => exists b, _shared p (JStr groupid) = Ok (JBool b) /\
                                  o = Some (JBool b)
            | None => o = None
            end) as (osh & -> & Hshared)
      end
  end.
  { unfold Py.has_key, pop_required. look.
    destruct (d !! "permissions") as [p|] eqn:Hp.
    - destruct (shaped_permissions _ Hsh _ Hp) as (p' & r & -> & Hr).
      run. rewrite (shared_total _ _ _ Hr). run. eexists (Some _). eauto.
    - exists None. split; [|done].
      by rewrite (delete_id _ "permissions") by (by look). }
  run.
  (* the target block *)
  lazymatch goal with
  | |- exists out, mbind _ ?blk = _ /\ _ =>
      lazymatch blk with
      | (if _ then _ else Ok (?new, ?app)) =>
          assert (exists o,
            blk = Ok (set_opt "target_selectors" o new, delete "target" app) /\
            match d !! "target" with
            | Some t => exists sel, _target_selectors t = Ok sel /\ o = Some sel
            | None => o = None
            end) as (osel & -> & Hsel)
      end
  end.
  { unfold Py.has_key, pop_required. look.
    destruct (d !! "target") as [t|] eqn:Ht.
    - destruct (shaped_target _ Hsh _ Ht) as (l & -> & Hl).
      destruct (target_selectors_total _ Hl) as [sel Hsel].
      run. rewrite Hsel. run. exists (Some sel). eauto.
    - exists None. split; [|done].
      by rewrite (delete_id _ "target") by (by look). }
  (* the loop over text and tags *)
  run. rewrite copy_if_present_eq. run. rewrite copy_if_present_eq. run. look.
  (* the document block *)
  lazymatch goal with
  | |- exists out, mbind _ ?blk = _ /\ _ =>
      lazymatch blk with
      | (if _ then _ else Ok (?new, ?app)) =>
          assert (blk = Ok (set_opt "document"
                              ((fun doc => _document claims doc
                                  (default existing (JStr <$> trimmed_uri d)))
                                 <$> d !! "document") new,
                            delete "document" app)) as ->
      end
  end.
  { unfold Py.has_key, pop_required. look.
    destruct (d !! "document") as [doc|] eqn:Hdoc.
    - run. unfold get_default. look.
      rewrite lookup_set_opt_fresh by (by look).
      by destruct (trimmed_uri d).
    - by rewrite (delete_id _ "document") by (by look). }
  run.
  change (delete "document" (delete "tags" (delete "text" (delete "target"
           (delete "permissions" (delete "uri"
             (without (protected_fields ++ immutable_fields) d)))))))
    with (without (protected_fields ++ update_consumed) d).
  eexists; split; [reflexivity|].
  split; look; rewrite ?lookup_set_opt_fresh by (by look);
    [ done
    | destruct (d !! "permissions"); naive_solver
    | destruct (d !! "target"); naive_solver
    | done | done | done | done | others ].
Qed.

Lemma update_blank existing groupid (d : gmap string json) :
  valid d ->
  blank_uri d = true ->
  update claims existing groupid (JObj d) = Raise (ValidationError uri_required).
Proof.
  intros Hv Hu. unfold update. rewrite Hv. run.
  change (foldl _ (_remove_protected_fields d) immutable_fields)
    with (without (protected_fields ++ immutable_fields) d).
  unfold Py.has_key, pop_required. look. unfold blank_uri in Hu.
  destruct (d !! "uri") as [[]|]; try done; run.
  by destruct (Py.strip s).
Qed.

End Runs.

(** * The properties of the specification *)

Lemma protected_not_output (f : string) :
  f ∈ protected_fields -> (f ∉ create_outputs) /\ (f ∉ update_outputs).
Proof.
  revert f. apply Forall_forall.
  apply (bool_decide_unpack
           (Forall (fun f => (f ∉ create_outputs) /\ (f ∉ update_outputs))
                   protected_fields)).
  by vm_compute.
Qed.

Lemma immutable_not_output (k : string) :
  k ∈ immutable_fields -> k ∉ update_outputs.
Proof.
  revert k. apply Forall_forall.
  apply (bool_decide_unpack
           (Forall (fun k => k ∉ update_outputs) immutable_fields)).
  by vm_compute.
Qed.

Lemma uri_missing_or_blank_true (d : gmap string json) :
  shaped d ->
  uri_missing_or_blank d = true <->
  d !! "uri" = None \/ exists s, d !! "uri" = Some (JStr s) /\ Py.strip s = "".
Proof.
  intros Hsh. unfold uri_missing_or_blank.
  destruct (d !! "uri") as [u|] eqn:Hd; [|naive_solver].
  destruct (shaped_uri _ Hsh _ Hd) as [s ->].
  destruct (Py.strip s) eqn:Hs; cbn; split; try done.
  - right. by exists s.
  - intros [|(s' & [= <-] & Hs')]; [done|]. by rewrite Hs in Hs'.
Qed.

Lemma valid_delete (d : gmap string json) (k : string) :
  valid d -> valid (delete k d).
Proof.
  rewrite !valid_schema.
  unfold AnnotationSchema.schema, Schema.all_of, Schema.property.
  cbn [forallb Schema.type_object]. rewrite !andb_true_iff, !lookup_delete.
  intros (? & ? & ? & ? & ? & ? & ? & ? & ? & ?).
  repeat split; try done; by case_decide.
Qed.

Lemma valid_insert_unknown (d : gmap string json) (k : string) (v : json) :
  k ∉ create_consumed -> valid d -> valid (<[k := v]> d).
Proof.
  intros Hk. apply valid_agree. intros k' Hk'.
  apply lookup_insert_ne. by intros ->.
Qed.

Section Claims.

Context (claims : document_claims).

(** C1.  On a payload that passes structural validation, [create]
    fails with the validation error "uri: 'uri' is a required property"
    exactly when [uri] is absent or blank once trimmed; otherwise (the
    schema leaves no other case) it succeeds and [target_uri] is the
    trimmed [uri]. *)
Theorem create_uri_required (authenticated_userid : json)
    (d : gmap string json) :
  valid d ->
  (create claims authenticated_userid (JObj d)
     = Raise (ValidationError "uri: 'uri' is a required property")
   <-> (d !! "uri" = None
        \/ exists s, d !! "uri" = Some (JStr s) /\ Py.strip s = ""))
  /\ (forall s, d !! "uri" = Some (JStr s) -> Py.strip s <> "" ->
      exists out, create claims authenticated_userid (JObj d) = Ok out
                  /\ out !! "target_uri" = Some (JStr (Py.strip s)))
  /\ (d !! "uri" = None \/ exists s, d !! "uri" = Some (JStr s)).
Proof.
  intros Hv. pose proof (valid_shaped _ Hv) as Hsh.
  split; [|split].
  - rewrite <- (uri_missing_or_blank_true _ Hsh).
    destruct (uri_missing_or_blank d) eqn:Hu.
    + by rewrite (create_blank claims _ _ Hv Hu).
    + destruct (create_ok claims authenticated_userid _ Hv Hu)
        as (s & out & _ & _ & -> & _).
      split; discriminate.
  - intros s Hd Hs.
    destruct (create_run claims authenticated_userid _ _ Hv Hd Hs)
      as (out & Hout & Hpost).
    exists out. split; [done|]. apply Hpost.
  - destruct (d !! "uri") as [u|] eqn:Hd; [right|by left].
    destruct (shaped_uri _ Hsh _ Hd) as [s ->]. by exists s.
Qed.

(** C3.  A successful [create] on a reply (non-empty [references])
    returns no [groupid] key, whatever [group] the client sent; on a
    payload with empty or absent [references] the [groupid] is the
    client's [group], or "__world__" when there is none. *)
Theorem create_reply_groupid (authenticated_userid : json)
    (d : gmap string json) :
  valid d ->
  uri_missing_or_blank d = false ->
  exists out,
    create claims authenticated_userid (JObj d) = Ok out
    /\ ((exists r rs, d !! "references" = Some (JArr (r :: rs))) ->
        out !! "groupid" = None)
    /\ (d !! "references" = None \/ d !! "references" = Some (JArr []) ->
        out !! "groupid" = Some match d !! "group" with
                                | Some g => g
                                | None => JStr "__world__"
                                end).
Proof.
  intros Hv Hu.
  destruct (create_ok claims authenticated_userid _ Hv Hu)
    as (s & out & _ & _ & Hout & Hpost).
  exists out. split; [done|].
  rewrite (cp_groupid _ _ _ _ _ Hpost). unfold field_or.
  split.
  - by intros (r & rs & ->).
  - by intros [-> | ->].
Qed.

(** C4.  Whatever the client sent, the output of [create] and of
    [update] has none of the nine protected fields, neither as a key of
    its own nor as a key of [extra]. *)
Theorem protected_fields_absent (authenticated_userid existing_target_uri : json)
    (groupid : string) (d : gmap string json) :
  valid d ->
  (uri_missing_or_blank d = false ->
   exists out extra,
     create claims authenticated_userid (JObj d) = Ok out
     /\ out !! "extra" = Some (JObj extra)
     /\ forall f, f ∈ protected_fields ->
                  out !! f = None /\ extra !! f = None)
  /\ (blank_uri d = false ->
      exists out extra,
        update claims existing_target_uri (JStr groupid) (JObj d) = Ok out
        /\ out !! "extra" = Some (JObj extra)
        /\ forall f, f ∈ protected_fields ->
                     out !! f = None /\ extra !! f = None).
Proof.
  intros Hv. split; intros Hu.
  - destruct (create_ok claims authenticated_userid _ Hv Hu)
      as (s & out & _ & _ & Hout & Hpost).
    eexists out, _. split; [done|]. split; [apply Hpost|].
    intros f Hf. split.
    + apply (cp_others _ _ _ _ _ Hpost). by apply protected_not_output.
    + apply lookup_without_in, elem_of_app. by left.
  - destruct (update_run claims existing_target_uri groupid _ Hv Hu)
      as (out & Hout & Hpost).
    eexists out, _. split; [done|]. split; [apply Hpost|].
    intros f Hf. split.
    + apply (up_others _ _ _ _ _ Hpost). by apply protected_not_output.
    + apply lookup_without_in, elem_of_app. by left.
Qed.

(** C5.  [update] throws away the [group], [groupid], [userid] and
    [references] the client sent: none of the four is a key of the
    output or of its [extra], and the result of [update] is the same as
    on the payload without the key. *)
Theorem update_discards_immutable (existing_target_uri : json)
    (groupid : string) (d : gmap string json) :
  valid d ->
  (blank_uri d = false ->
   exists out extra,
     update claims existing_target_uri (JStr groupid) (JObj d) = Ok out
     /\ out !! "extra" = Some (JObj extra)
     /\ forall k, k ∈ ["group"; "groupid"; "userid"; "references"] ->
                  out !! k = None /\ extra !! k = None)
  /\ (forall k, k ∈ ["group"; "groupid"; "userid"; "references"] ->
      valid (delete k d)
      /\ update claims existing_target_uri (JStr groupid) (JObj (delete k d))
         = update claims existing_target_uri (JStr groupid) (JObj d)).
Proof.
  intros Hv. fold immutable_fields. split.
  - intros Hu.
    destruct (update_run claims existing_target_uri groupid _ Hv Hu)
      as (out & Hout & Hpost).
    eexists out, _. split; [done|]. split; [apply Hpost|].
    intros k Hk. split.
    + apply (up_others _ _ _ _ _ Hpost). by apply immutable_not_output.
    + apply lookup_without_in. unfold update_consumed.
      rewrite !elem_of_app. auto.
  - intros k Hk.
    assert (valid (delete k d)) as Hv' by (by apply valid_delete).
    split; [done|].
    unfold update. rewrite Hv, Hv'. run.
    change (foldl _ (_remove_protected_fields (delete k d)) immutable_fields)
      with (without (protected_fields ++ immutable_fields) (delete k d)).
    change (foldl _ (_remove_protected_fields d) immutable_fields)
      with (without (protected_fields ++ immutable_fields) d).
    rewrite without_delete; [done|]. apply elem_of_app. by right.
Qed.


(** C6.  [update] does not need a [uri]: without one it succeeds, sets
    no [target_uri], and a [document] is projected with the stored URI
    the caller supplied as claimant.  A [uri] that is blank once
    trimmed is the same error as on [create]; any other [uri] becomes,
    trimmed, the [target_uri]. *)
Theorem update_uri_optional (existing_target_uri : json)
    (groupid : string) (d : gmap string json) :
  valid d ->
  (d !! "uri" = None ->
   exists out,
     update claims existing_target_uri (JStr groupid) (JObj d) = Ok out
     /\ out !! "target_uri" = None
     /\ forall doc, d !! "document" = Some doc ->
          out !! "document"
          = Some (_document claims doc existing_target_uri))
  /\ (forall s, d !! "uri" = Some (JStr s) -> Py.strip s = "" ->
      update claims existing_target_uri (JStr groupid) (JObj d)
      = Raise (ValidationError "uri: 'uri' is a required property"))
  /\ (forall s, d !! "uri" = Some (JStr s) -> Py.strip s <> "" ->
      exists out,
        update claims existing_target_uri (JStr groupid) (JObj d) = Ok out
        /\ out !! "target_uri" = Some (JStr (Py.strip s))).
Proof.
  intros Hv. split; [|split].
  - intros Hd.
    assert (blank_uri d = false) as Hu by (unfold blank_uri; by rewrite Hd).
    destruct (update_run claims existing_target_uri groupid _ Hv Hu)
      as (out & Hout & Hpost).
    exists out. split; [done|].
    rewrite (up_target_uri _ _ _ _ _ Hpost), (up_document _ _ _ _ _ Hpost).
    unfold trimmed_uri. rewrite Hd. split; [done|]. by intros doc ->.
  - intros s Hd Hs. apply update_blank; [done|].
    unfold blank_uri. by rewrite Hd, Hs.
  - intros s Hd Hs.
    assert (blank_uri d = false) as Hu.
    { unfold blank_uri. rewrite Hd. by destruct (Py.strip s). }
    destruct (update_run claims existing_target_uri groupid _ Hv Hu)
      as (out & Hout & Hpost).
    exists out. split; [done|].
    rewrite (up_target_uri _ _ _ _ _ Hpost). unfold trimmed_uri. by rewrite Hd.
Qed.

(** C8.  The [extra] of the output is the payload without the protected
    fields and without the fields the pipeline consumes: every other
    top-level field is in [extra] with its value, nothing else is.  A
    field of that kind never makes a pipeline fail: added to a payload
    on which the pipeline succeeds, the pipeline succeeds again and
    carries the field in [extra]. *)
Theorem extra_is_residual (authenticated_userid existing_target_uri : json)
    (groupid : string) (d : gmap string json) :
  valid d ->
  (uri_missing_or_blank d = false ->
   exists out extra,
     create claims authenticated_userid (JObj d) = Ok out
     /\ out !! "extra" = Some (JObj extra)
     /\ forall k,
          extra !! k
          = if bool_decide (k ∈ protected_fields ++
                ["uri"; "text"; "tags"; "group"; "references"; "permissions";
                 "target"; "document"])
            then None else d !! k)
  /\ (blank_uri d = false ->
      exists out extra,
        update claims existing_target_uri (JStr groupid) (JObj d) = Ok out
        /\ out !! "extra" = Some (JObj extra)
        /\ forall k,
             extra !! k
             = if bool_decide (k ∈ protected_fields ++
                   ["uri"; "text"; "tags"; "group"; "references";
                    "permissions"; "target"; "document"] ++
                   ["group"; "groupid"; "userid"; "references"])
               then None else d !! k)
  /\ (forall k v,
        k ∉ protected_fields ++ create_consumed ->
        uri_missing_or_blank d = false ->
        exists out extra,
          create claims authenticated_userid (JObj (<[k := v]> d)) = Ok out
          /\ out !! "extra" = Some (JObj extra)
          /\ extra !! k = Some v)
  /\ (forall k v,
        k ∉ protected_fields ++ update_consumed ->
        blank_uri d = false ->
        exists out extra,
          update claims existing_target_uri (JStr groupid)
                 (JObj (<[k := v]> d)) = Ok out
          /\ out !! "extra" = Some (JObj extra)
          /\ extra !! k = Some v).
Proof.
  intros Hv. fold create_consumed. split; [|split; [|split]].
  - intros Hu.
    destruct (create_ok claims authenticated_userid _ Hv Hu)
      as (s & out & _ & _ & Hout & Hpost).
    eexists out, _. split; [done|]. split; [apply Hpost|].
    intros k. apply lookup_without.
  - intros Hu.
    destruct (update_run claims existing_target_uri groupid _ Hv Hu)
      as (out & Hout & Hpost).
    eexists out, _. split; [done|]. split; [apply Hpost|].
    intros k. rewrite lookup_without.
    apply (f_equal (fun b : bool => if b then None else d !! k)).
    apply bool_decide_ext. unfold update_consumed, create_consumed, immutable_fields.
    rewrite !elem_of_app, !elem_of_cons, !elem_of_nil. tauto.
  - intros k v Hk Hu.
    assert (k ∉ create_consumed) as Hk'.
    { intros ?. apply Hk, elem_of_app. by right. }
    assert (k <> "uri") as Hne.
    { intros ->. apply Hk'. unfold create_consumed. by left. }
    assert (uri_missing_or_blank (<[k := v]> d) = false) as Hu'.
    { unfold uri_missing_or_blank in *. by rewrite lookup_insert_ne. }
    destruct (create_ok claims authenticated_userid _
                (valid_insert_unknown _ _ v Hk' Hv) Hu')
      as (s & out & _ & _ & Hout & Hpost).
    eexists out, _. split; [done|]. split; [apply Hpost|].
    rewrite lookup_without_notin by done. apply lookup_insert_eq.
  - intros k v Hk Hu.
    assert (k ∉ create_consumed) as Hk'.
    { intros Hin. apply Hk. revert Hin.
      unfold update_consumed, create_consumed, immutable_fields.
      rewrite !elem_of_app, !elem_of_cons, !elem_of_nil. tauto. }
    assert (k <> "uri") as Hne.
    { intros ->. apply Hk'. unfold create_consumed. by left. }
    assert (blank_uri (<[k := v]> d) = false) as Hu'.
    { unfold blank_uri in *. by rewrite lookup_insert_ne. }
    destruct (update_run claims existing_target_uri groupid _
                (valid_insert_unknown _ _ v Hk' Hv) Hu')
      as (out & Hout & Hpost).
    eexists out, _. split; [done|]. split; [apply Hpost|].
    rewrite lookup_without_notin by done. apply lookup_insert_eq.
Qed.

(** C9.  The output of [create] always has a boolean [shared]: the
    permission reduction against the payload's group when the client
    sent [permissions], false when it did not.  The output of [update]
    has [shared] if and only if the client sent [permissions]. *)
Theorem shared_presence (authenticated_userid existing_target_uri : json)
    (groupid : string) (d : gmap string json) :
  valid d ->
  (uri_missing_or_blank d = false ->
   exists out b,
     create claims authenticated_userid (JObj d) = Ok out
     /\ out !! "shared" = Some (JBool b)
     /\ (forall p, d !! "permissions" = Some p ->
                   _shared p (group_of d) = Ok (JBool b))
     /\ (d !! "permissions" = None -> b = false))
  /\ (blank_uri d = false ->
      exists out,
        update claims existing_target_uri (JStr groupid) (JObj d) = Ok out
        /\ (is_Some (out !! "shared") <-> is_Some (d !! "permissions"))
        /\ (forall p, d !! "permissions" = Some p ->
            exists b, _shared p (JStr groupid) = Ok (JBool b)
                      /\ out !! "shared" = Some (JBool b))).
Proof.
  intros Hv. split; intros Hu.
  - destruct (create_ok claims authenticated_userid _ Hv Hu)
      as (s & out & _ & _ & Hout & Hpost).
    destruct (cp_shared _ _ _ _ _ Hpost) as (b & Hb & Hp).
    exists out, b. split; [done|]. split; [done|].
    split; [intros p Hd | intros Hd]; by rewrite Hd in Hp.
  - destruct (update_run claims existing_target_uri groupid _ Hv Hu)
      as (out & Hout & Hpost).
    exists out. split; [done|].
    pose proof (up_shared _ _ _ _ _ Hpost) as Hp.
    destruct (d !! "permissions") as [p|].
    + destruct Hp as (b & Hb & Hs). rewrite Hs. split; [done|].
      intros ? [= <-]. eauto.
    + rewrite Hp. split; [|done]. split; by intros [? ?].
Qed.

(** C10.  On a reply that carries [permissions], [create] computes
    [shared] against the [group] the client sent (or "__world__"), and
    then drops [groupid] from the output.  The parent annotation is no
    input of [create], so its group plays no part. *)
Theorem reply_shared_against_sent_group (authenticated_userid : json)
    (d : gmap string json) (r : json) (rs : list json) (p : json) :
  valid d ->
  uri_missing_or_blank d = false ->
  d !! "references" = Some (JArr (r :: rs)) ->
  d !! "permissions" = Some p ->
  exists out g read,
    create claims authenticated_userid (JObj d) = Ok out
    /\ field_or "group" (JStr "__world__") d = JStr g
    /\ Py.getitem p "read" = Ok read
    /\ out !! "shared"
       = Some (JBool (Py.eq_str_list read ["group:" +:+ g]))
    /\ out !! "groupid" = None.
Proof.
  intros Hv Hu Hr Hp. pose proof (valid_shaped _ Hv) as Hsh.
  destruct (create_ok claims authenticated_userid _ Hv Hu)
    as (s & out & _ & _ & Hout & Hpost).
  destruct (group_of_str _ Hsh) as [g Hg].
  destruct (shaped_permissions _ Hsh _ Hp) as (p' & read & -> & Hread).
  destruct (cp_shared _ _ _ _ _ Hpost) as (b & Hb & Hred).
  rewrite Hp, Hg, (shared_total _ _ _ Hread) in Hred. injection Hred as <-.
  exists out, g, (JArr read). split; [done|]. split; [done|].
  split; [by cbn; rewrite Hread|]. split; [done|].
  rewrite (cp_groupid _ _ _ _ _ Hpost). unfold field_or. by rewrite Hr.
Qed.

End Claims.

(** C2.  [_shared] is true exactly when [read] is the one-element list
    of "group:" followed by the group id, false on every other [read];
    the [admin], [delete] and [update] entries of the permissions have no
    say in it. *)
Theorem shared_single_group_read (p : gmap string json) (groupid : string) :
  (_shared (JObj p) (JStr groupid) = Ok (JBool true)
   <-> p !! "read" = Some (JArr [JStr ("group:" +:+ groupid)]))
  /\ (forall read, p !! "read" = Some read ->
        read <> JArr [JStr ("group:" +:+ groupid)] ->
        _shared (JObj p) (JStr groupid) = Ok (JBool false))
  /\ (forall k v, k ∈ ["admin"; "delete"; "update"] ->
        _shared (JObj (<[k := v]> p)) (JStr groupid)
        = _shared (JObj p) (JStr groupid)
        /\ _shared (JObj (delete k p)) (JStr groupid)
           = _shared (JObj p) (JStr groupid)).
Proof.
  split; [|split].
  - destruct (p !! "read") as [read|] eqn:Hread.
    + rewrite (shared_total _ _ _ Hread). split.
      * intros [= H]. by apply eq_str_list_true in H as ->.
      * intros [= ->]. by rewrite (proj2 (eq_str_list_true _ _)).
    + unfold _shared. cbn. by rewrite Hread.
  - intros read Hread Hne. rewrite (shared_total _ _ _ Hread).
    destruct (Py.eq_str_list read _) eqn:Heq; [|done].
    by apply eq_str_list_true in Heq.
  - intros k v Hk.
    assert (k <> "read") as Hne.
    { intros ->. revert Hk. rewrite !elem_of_cons, elem_of_nil.
      by intros [|[|[|]]]. }
    unfold _shared. cbn.
    by rewrite lookup_insert_ne, lookup_delete_ne.
Qed.

(** C7.  [_target_selectors] returns the [selector] of the first target
    when there is a first target and it has one, the empty list
    otherwise; the targets after the first and the other fields of the
    first do not matter. *)
Theorem target_selectors_first_only :
  _target_selectors (JArr []) = Ok (JArr [])
  /\ (forall t rest selector,
        t !! "selector" = Some selector ->
        _target_selectors (JArr (JObj t :: rest)) = Ok selector)
  /\ (forall t rest,
        t !! "selector" = None ->
        _target_selectors (JArr (JObj t :: rest)) = Ok (JArr []))
  /\ (forall t t' rest rest',
        t !! "selector" = t' !! "selector" ->
        _target_selectors (JArr (JObj t :: rest))
        = _target_selectors (JArr (JObj t' :: rest'))).
Proof.
  split; [done|]. split; [|split].
  - intros t rest selector H. rewrite target_selectors_first.
    unfold field_or. by rewrite H.
  - intros t rest H. rewrite target_selectors_first.
    unfold field_or. by rewrite H.
  - intros t t' rest rest' H. rewrite !target_selectors_first.
    unfold field_or. by rewrite H.
Qed.

(** * The properties on the sample payloads *)

Example example_payload_valid :
  AnnotationSchema.validate (JObj example_payload) = Ok (JObj example_payload).
Proof. by vm_compute. Qed.

(** The examples of section 8 of the specification. *)
Example shared_examples :
  _shared (JObj {["read" := JArr [JStr "group:abc"]]}) (JStr "abc")
    = Ok (JBool true)
  /\ _shared (JObj {["read" := JArr [JStr "group:abc"; JStr "acct:x"]]})
             (JStr "abc") = Ok (JBool false)
  /\ _shared (JObj {["read" := JArr [JStr "group:__world__"]]}) (JStr "abc")
     = Ok (JBool false)
  /\ _shared (JObj {["read" := JArr [JStr "acct:x"]]}) (JStr "abc")
     = Ok (JBool false).
Proof. by vm_compute. Qed.

Example target_selectors_example :
  _target_selectors example_target
  = Ok (JArr [JObj {["type" := JStr "TextQuoteSelector"]}]).
Proof. by vm_compute. Qed.

Lemma create_uri_required_witness :
  valid example_padded_uri
  /\ exists out,
       create example_claims example_user (JObj example_padded_uri) = Ok out
       /\ out !! "target_uri" = Some (JStr "http://example.com/page").
Proof.
  assert (valid example_padded_uri) as Hv by (by vm_compute).
  split; [exact Hv|].
  destruct (create_uri_required example_claims example_user example_padded_uri Hv)
    as (_ & H & _).
  destruct (H (utf8 [0x2003; 0x3000]%N +:+ "http://example.com/page"
               +:+ utf8 [0x2028; 0x85; 0x20]%N))
    as (out & Hout & Huri); [by vm_compute | by vm_compute |].
  exists out. split; [exact Hout|]. rewrite Huri. by vm_compute.
Defined.

Lemma shared_single_group_read_witness :
  _shared (JObj example_permissions) (JStr "abc") = Ok (JBool true)
  /\ _shared (JObj example_permissions) (JStr "xyz") = Ok (JBool false)
  /\ _shared (JObj (delete "admin" example_permissions)) (JStr "abc")
     = _shared (JObj example_permissions) (JStr "abc").
Proof.
  split; [|split].
  - apply (shared_single_group_read example_permissions "abc"). reflexivity.
  - apply (proj1 (proj2 (shared_single_group_read example_permissions "xyz"))
             (JArr [JStr "group:abc"])); [reflexivity | by vm_compute].
  - apply (proj2 (proj2 (shared_single_group_read example_permissions "abc"))
             "admin" JNull). by repeat constructor.
Defined.

Lemma create_reply_groupid_witness :
  valid example_reply
  /\ uri_missing_or_blank example_reply = false
  /\ exists out,
       create example_claims example_user (JObj example_reply) = Ok out
       /\ out !! "groupid" = None.
Proof.
  assert (valid example_reply) as Hv by (by vm_compute).
  assert (uri_missing_or_blank example_reply = false) as Hu by (by vm_compute).
  split; [exact Hv|]. split; [exact Hu|].
  destruct (create_reply_groupid example_claims example_user example_reply Hv Hu)
    as (out & Hout & Hreply & _).
  exists out. split; [exact Hout|].
  apply Hreply. exists (JStr "parent"), []. reflexivity.
Defined.

Lemma protected_fields_absent_witness :
  valid example_payload
  /\ uri_missing_or_blank example_payload = false
  /\ exists out extra,
       create example_claims example_user (JObj example_payload) = Ok out
       /\ out !! "extra" = Some (JObj extra)
       /\ out !! "id" = None /\ extra !! "id" = None.
Proof.
  assert (valid example_payload) as Hv by (by vm_compute).
  assert (uri_missing_or_blank example_payload = false) as Hu by (by vm_compute).
  split; [exact Hv|]. split; [exact Hu|].
  destruct (proj1 (protected_fields_absent example_claims example_user
                     example_stored_uri "abc" example_payload Hv) Hu)
    as (out & extra & Hout & Hextra & Hf).
  exists out, extra. split; [exact Hout|]. split; [exact Hextra|].
  apply Hf. by repeat constructor.
Defined.

Lemma update_discards_immutable_witness :
  valid example_reply
  /\ blank_uri example_reply = false
  /\ (exists out extra,
        update example_claims example_stored_uri (JStr "abc") (JObj example_reply)
        = Ok out
        /\ out !! "extra" = Some (JObj extra)
        /\ out !! "references" = None /\ extra !! "references" = None)
  /\ update example_claims example_stored_uri (JStr "abc")
            (JObj (delete "references" example_reply))
     = update example_claims example_stored_uri (JStr "abc") (JObj example_reply).
Proof.
  assert (valid example_reply) as Hv by (by vm_compute).
  assert (blank_uri example_reply = false) as Hu by (by vm_compute).
  split; [exact Hv|]. split; [exact Hu|].
  destruct (update_discards_immutable example_claims example_stored_uri "abc"
              example_reply Hv) as (Hgone & Hframe).
  split.
  - destruct (Hgone Hu) as (out & extra & Hout & Hextra & Hk).
    exists out, extra. split; [exact Hout|]. split; [exact Hextra|].
    apply Hk. by repeat constructor.
  - apply Hframe. by repeat constructor.
Defined.

Lemma update_uri_optional_witness :
  valid example_blank_uri
  /\ update example_claims example_stored_uri (JStr "abc")
            (JObj example_blank_uri)
     = Raise (ValidationError "uri: 'uri' is a required property").
Proof.
  assert (valid example_blank_uri) as Hv by (by vm_compute).
  split; [exact Hv|].
  destruct (update_uri_optional example_claims example_stored_uri "abc"
              example_blank_uri Hv) as (_ & H & _).
  apply (H (utf8 [0x2003; 0x3000; 0x2028; 0xA0]%N)); by vm_compute.
Defined.

Lemma target_selectors_first_only_witness :
  _target_selectors
    (JArr [JObj {["selector" := JArr [JObj {["type" := JStr "TextQuoteSelector"]}]]};
           JObj {["selector" := JArr [JObj {["type" := JStr "X"]}]]}])
  = Ok (JArr [JObj {["type" := JStr "TextQuoteSelector"]}]).
Proof.
  apply (proj1 (proj2 target_selectors_first_only)). reflexivity.
Defined.

Lemma extra_is_residual_witness :
  valid example_payload
  /\ uri_missing_or_blank example_payload = false
  /\ exists out extra,
       create example_claims example_user (JObj example_payload) = Ok out
       /\ out !! "extra" = Some (JObj extra)
       /\ extra !! "colour" = Some (JStr "red")
       /\ extra !! "text" = None.
Proof.
  assert (valid example_payload) as Hv by (by vm_compute).
  assert (uri_missing_or_blank example_payload = false) as Hu by (by vm_compute).
  split; [exact Hv|]. split; [exact Hu|].
  destruct (proj1 (extra_is_residual example_claims example_user
                     example_stored_uri "abc" example_payload Hv) Hu)
    as (out & extra & Hout & Hextra & Hk).
  exists out, extra. split; [exact Hout|]. split; [exact Hextra|].
  split; [rewrite (Hk "colour") | rewrite (Hk "text")]; by vm_compute.
Defined.

Lemma shared_presence_witness :
  valid example_without_uri
  /\ blank_uri example_without_uri = false
  /\ exists out,
       update example_claims example_stored_uri (JStr "abc")
              (JObj example_without_uri) = Ok out
       /\ out !! "shared" = Some (JBool true).
Proof.
  assert (valid example_without_uri) as Hv by (by vm_compute).
  assert (blank_uri example_without_uri = false) as Hu by (by vm_compute).
  split; [exact Hv|]. split; [exact Hu|].
  destruct (proj2 (shared_presence example_claims example_user
                     example_stored_uri "abc" example_without_uri Hv) Hu)
    as (out & Hout & _ & Hp).
  exists out. split; [exact Hout|].
  destruct (Hp (JObj example_permissions) eq_refl) as (b & Hb & Hs).
  vm_compute in Hb. injection Hb as <-. exact Hs.
Defined.

Lemma reply_shared_against_sent_group_witness :
  valid example_reply
  /\ uri_missing_or_blank example_reply = false
  /\ exists out,
       create example_claims example_user (JObj example_reply) = Ok out
       /\ out !! "shared" = Some (JBool true)
       /\ out !! "groupid" = None.
Proof.
  assert (valid example_reply) as Hv by (by vm_compute).
  assert (uri_missing_or_blank example_reply = false) as Hu by (by vm_compute).
  split; [exact Hv|]. split; [exact Hu|].
  destruct (reply_shared_against_sent_group example_claims example_user
              example_reply (JStr "parent") [] (JObj example_permissions)
              Hv Hu eq_refl eq_refl)
    as (out & g & read & Hout & Hg & Hread & Hshared & Hgroupid).
  exists out. split; [exact Hout|]. split; [|exact Hgroupid].
  vm_compute in Hg. injection Hg as <-.
  vm_compute in Hread. injection Hread as <-.
  exact Hshared.
Defined.

(** * Further properties *)

(** ** Trimming *)

Lemma append_cons (c : ascii) (a b : string) :
  String c a +:+ b = String c (a +:+ b).
Proof. reflexivity. Qed.

Lemma length_append (a b : string) :
  String.length (a +:+ b) = String.length a + String.length b.
Proof. induction a as [|c a IH]; [done|]. rewrite append_cons. cbn. by rewrite IH. Qed.

Lemma next_char_length (s rest : string) (cp : N) :
  Py.next_char s = Some (cp, rest) -> String.length rest < String.length s.
Proof.
  unfold Py.next_char. destruct s as [|c0 s0]; [done|].
  destruct (_ <? _)%N; [intros [= _ <-]; cbn; lia|].
  destruct (_ && _).
  { destruct s0 as [|c1 s1]; [done|]. destruct (Py.continuation c1); [|done].
    cbn zeta. destruct (Py.encodes _ _); [|done]. intros [= _ <-]. cbn. lia. }
  destruct (_ && _).
  { destruct s0 as [|c1 [|c2 s2]]; try done.
    destruct (Py.continuation c1), (Py.continuation c2); try done.
    cbn zeta. destruct (Py.encodes _ _); [|done]. intros [= _ <-]. cbn. lia. }
  destruct (_ && _); [|done].
  destruct s0 as [|c1 [|c2 [|c3 s3]]]; try done.
  destruct (Py.continuation c1), (Py.continuation c2), (Py.continuation c3);
    try done.
  cbn zeta. destruct (Py.encodes _ _); [|done]. intros [= _ <-]. cbn. lia.
Qed.

Lemma next_char_append (a b rest : string) (cp : N) :
  Py.next_char a = Some (cp, rest) ->
  Py.next_char (a +:+ b) = Some (cp, rest +:+ b).
Proof.
  unfold Py.next_char. destruct a as [|c0 s0]; [done|]. rewrite append_cons.
  destruct (_ <? _)%N; [by intros [= <- <-]|].
  destruct (_ && _).
  { destruct s0 as [|c1 s1]; [done|]. rewrite append_cons.
    destruct (Py.continuation c1); [|done].
    cbn zeta. destruct (Py.encodes _ _); [|done]. by intros [= <- <-]. }
  destruct (_ && _).
  { destruct s0 as [|c1 [|c2 s2]]; try done. rewrite !append_cons.
    destruct (Py.continuation c1), (Py.continuation c2); try done.
    cbn zeta. destruct (Py.encodes _ _); [|done]. by intros [= <- <-]. }
  destruct (_ && _); [|done].
  destruct s0 as [|c1 [|c2 [|c3 s3]]]; try done. rewrite !append_cons.
  destruct (Py.continuation c1), (Py.continuation c2), (Py.continuation c3);
    try done.
  cbn zeta. destruct (Py.encodes _ _); [|done]. by intros [= <- <-].
Qed.

Lemma space_prefix_length (s rest : string) :
  Py.space_prefix s = Some rest -> String.length rest < String.length s.
Proof.
  unfold Py.space_prefix. destruct (Py.next_char s) as [[cp r]|] eqn:Hn; [|done].
  destruct (Py.isspace cp); [|done]. intros [= <-]. by eapply next_char_length.
Qed.

Lemma space_prefix_append (a b rest : string) :
  Py.space_prefix a = Some rest ->
  Py.space_prefix (a +:+ b) = Some (rest +:+ b).
Proof.
  unfold Py.space_prefix. destruct (Py.next_char a) as [[cp r]|] eqn:Hn; [|done].
  rewrite (next_char_append _ b _ _ Hn).
  destruct (Py.isspace cp); [|done]. by intros [= <-].
Qed.

Lemma lstrip_loop_fuel (n m : nat) (s : string) :
  String.length s <= n -> String.length s <= m ->
  Py.lstrip_loop n s = Py.lstrip_loop m s.
Proof.
  revert m s. induction n as [|n IH]; intros m s Hn Hm.
  - destruct s; [|cbn in Hn; lia]. by destruct m.
  - destruct m as [|m].
    + destruct s; [done|cbn in Hm; lia].
    + cbn [Py.lstrip_loop].
      destruct (Py.space_prefix s) as [rest|] eqn:Hp; [|done].
      apply space_prefix_length in Hp. apply IH; lia.
Qed.

(** The fuel of [lstrip] is enough. *)
Lemma lstrip_loop_enough (n : nat) (s : string) :
  String.length s <= n -> Py.lstrip_loop n s = Py.lstrip s.
Proof. intros Hn. by apply lstrip_loop_fuel. Qed.

Lemma lstrip_unfold (s : string) :
  Py.lstrip s = match Py.space_prefix s with
                | Some rest => Py.lstrip rest
                | None => s
                end.
Proof.
  unfold Py.lstrip at 1. destruct s as [|c s]; [done|].
  cbn [String.length Py.lstrip_loop].
  destruct (Py.space_prefix (String c s)) as [rest|] eqn:Hp; [|done].
  apply lstrip_loop_enough. apply space_prefix_length in Hp. cbn in Hp. lia.
Qed.

Lemma lstrip_length (s : string) :
  String.length (Py.lstrip s) <= String.length s.
Proof.
  remember (String.length s) as n eqn:Hn. revert s Hn.
  induction n as [n IH] using lt_wf_ind. intros s ->.
  rewrite lstrip_unfold. destruct (Py.space_prefix s) as [rest|] eqn:Hp; [|done].
  apply space_prefix_length in Hp.
  specialize (IH _ Hp rest eq_refl). lia.
Qed.

Lemma lstrip_idem (s : string) : Py.lstrip (Py.lstrip s) = Py.lstrip s.
Proof.
  remember (String.length s) as n eqn:Hn. revert s Hn.
  induction n as [n IH] using lt_wf_ind. intros s ->.
  rewrite (lstrip_unfold s).
  destruct (Py.space_prefix s) as [rest|] eqn:Hp.
  - apply space_prefix_length in Hp. by apply (IH _ Hp).
  - rewrite lstrip_unfold. by rewrite Hp.
Qed.

(** White space in front of a string goes with the string's own. *)
Lemma lstrip_blank_append (a b : string) :
  Py.lstrip a = "" -> Py.lstrip (a +:+ b) = Py.lstrip b.
Proof.
  remember (String.length a) as n eqn:Hn. revert a Hn.
  induction n as [n IH] using lt_wf_ind. intros a ->.
  rewrite (lstrip_unfold a).
  destruct (Py.space_prefix a) as [rest|] eqn:Hp.
  - intros Hr. rewrite (lstrip_unfold (a +:+ b)), (space_prefix_append _ b _ Hp).
    apply space_prefix_length in Hp. by apply (IH _ Hp).
  - by intros ->.
Qed.

(** [rstrip] cuts off white space, and white space only. *)
Lemma rstrip_split (s : string) :
  exists w, s = Py.rstrip s +:+ w /\ Py.lstrip w = "".
Proof.
  induction s as [|c s (w & Hs & Hw)]; [by exists ""|].
  cbn [Py.rstrip].
  destruct (Py.lstrip (String c s)) as [|c' t] eqn:Hl; cbn [Py.is_empty].
  - by exists (String c s).
  - exists w. split; [|done]. rewrite append_cons. by rewrite <- Hs.
Qed.

Lemma rstrip_idem (s : string) : Py.rstrip (Py.rstrip s) = Py.rstrip s.
Proof.
  induction s as [|c s IH]; [done|]. cbn [Py.rstrip].
  destruct (Py.lstrip (String c s)) as [|c' t] eqn:Hl; cbn [Py.is_empty]; [done|].
  cbn [Py.rstrip]. rewrite IH.
  destruct (Py.lstrip (String c (Py.rstrip s))) as [|c'' t'] eqn:Hl';
    cbn [Py.is_empty]; [|done].
  destruct (rstrip_split s) as (w & Hs & Hw).
  pose proof (lstrip_blank_append _ w Hl') as H.
  rewrite append_cons, <- Hs, Hl, Hw in H. done.
Qed.

(** [rstrip] leaves the front of a string as it is. *)
Lemma lstrip_rstrip (t : string) :
  Py.lstrip t = t -> Py.lstrip (Py.rstrip t) = Py.rstrip t.
Proof.
  intros Ht. rewrite lstrip_unfold.
  destruct (Py.space_prefix (Py.rstrip t)) as [rest|] eqn:Hp; [|done].
  destruct (rstrip_split t) as (w & Hs & Hw).
  pose proof (space_prefix_append _ w _ Hp) as Hp'. rewrite <- Hs in Hp'.
  pose proof (space_prefix_length _ _ Hp') as Hlen.
  rewrite lstrip_unfold, Hp' in Ht.
  pose proof (lstrip_length (rest +:+ w)) as Hle. rewrite Ht in Hle. lia.
Qed.

Lemma strip_idem (s : string) : Py.strip (Py.strip s) = Py.strip s.
Proof.
  unfold Py.strip.
  rewrite (lstrip_rstrip (Py.lstrip s)) by apply lstrip_idem.
  apply rstrip_idem.
Qed.

(** ** Strings as encodings of their characters *)

Lemma byte_to_byte (n : N) : (n < 256)%N -> Py.byte (to_byte n) = n.
Proof. apply N_ascii_embedding. Qed.

Lemma continuation_to_byte (x : N) :
  (x < 64)%N -> Py.continuation (to_byte (0x80 + x)) = Some x.
Proof.
  intros Hx. unfold Py.continuation. rewrite byte_to_byte by lia. cbn zeta.
  replace (0x80 <=? 0x80 + x)%N with true by (symmetry; apply N.leb_le; lia).
  replace (0x80 + x <? 0xC0)%N with true by (symmetry; apply N.ltb_lt; lia).
  cbn [andb]. f_equal. lia.
Qed.

Lemma continuation_next_char (c : ascii) (x : N) (s : string) :
  Py.continuation c = Some x -> Py.next_char (String c s) = None.
Proof.
  unfold Py.continuation, Py.next_char. cbn zeta.
  destruct ((0x80 <=? Py.byte c) && (Py.byte c <? 0xC0))%N eqn:H; [|done].
  intros _. apply andb_true_iff in H as [H1%N.leb_le H2%N.ltb_lt].
  replace (Py.byte c <? 0x80)%N with false by (symmetry; apply N.ltb_ge; lia).
  replace (0xC0 <=? Py.byte c)%N with false by (symmetry; apply N.leb_gt; lia).
  replace (0xE0 <=? Py.byte c)%N with false by (symmetry; apply N.leb_gt; lia).
  replace (0xF0 <=? Py.byte c)%N with false by (symmetry; apply N.leb_gt; lia).
  done.
Qed.

(** Settle a comparison of the goal from the bounds at hand. *)
Ltac decide_test :=
  match goal with
  | |- context [(?a <? ?b)%N] =>
      first [ replace (a <? b)%N with true by (symmetry; apply N.ltb_lt; lia)
            | replace (a <? b)%N with false by (symmetry; apply N.ltb_ge; lia) ]
  | |- context [(?a <=? ?b)%N] =>
      first [ replace (a <=? b)%N with true by (symmetry; apply N.leb_le; lia)
            | replace (a <=? b)%N with false by (symmetry; apply N.leb_gt; lia) ]
  end.

(** Decoding the encoding of a character gives the character back. *)
Lemma next_char_utf8_char (cp : N) (s : string) :
  scalar cp = true ->
  Py.next_char (utf8_char cp +:+ s) = Some (cp, s).
Proof.
  unfold scalar, Py.encodes. intros H.
  apply andb_true_iff in H as [H Hmax%N.leb_le].
  apply andb_true_iff in H as [_ Hsur%negb_true_iff].
  unfold utf8_char.
  replace (cp / 4096)%N with (cp / 64 / 64)%N by (by rewrite N.Div0.div_div).
  replace (cp / 262144)%N with (cp / 64 / 64 / 64)%N by (by rewrite !N.Div0.div_div).
  pose proof (N.div_mod cp 64 ltac:(lia)) as E1.
  pose proof (N.mod_lt cp 64 ltac:(lia)) as M1.
  pose proof (N.div_mod (cp / 64) 64 ltac:(lia)) as E2.
  pose proof (N.mod_lt (cp / 64) 64 ltac:(lia)) as M2.
  pose proof (N.div_mod (cp / 64 / 64) 64 ltac:(lia)) as E3.
  pose proof (N.mod_lt (cp / 64 / 64) 64 ltac:(lia)) as M3.
  revert E1 M1 E2 M2 E3 M3.
  generalize (cp mod 64)%N ((cp / 64) mod 64)%N ((cp / 64 / 64) mod 64)%N
             (cp / 64 / 64 / 64)%N.
  generalize (cp / 64 / 64)%N. generalize (cp / 64)%N.
  intros q1 q2 r1 r2 r3 q3 E1 M1 E2 M2 E3 M3.
  destruct (cp <? 0x80)%N eqn:C1;
    [apply N.ltb_lt in C1 | apply N.ltb_ge in C1].
  { rewrite append_cons. unfold Py.next_char. rewrite byte_to_byte by lia.
    cbn zeta. by decide_test. }
  destruct (cp <? 0x800)%N eqn:C2;
    [apply N.ltb_lt in C2 | apply N.ltb_ge in C2].
  { rewrite !append_cons. unfold Py.next_char.
    rewrite byte_to_byte by lia. cbn zeta.
    repeat decide_test. cbn [andb].
    rewrite continuation_to_byte by done. cbn zeta.
    replace ((0xC0 + q1 - 0xC0) * 64 + r1)%N with cp by lia.
    unfold Py.encodes. repeat decide_test. by cbn [andb negb]. }
  destruct (cp <? 0x10000)%N eqn:C3;
    [apply N.ltb_lt in C3 | apply N.ltb_ge in C3].
  { rewrite !append_cons. unfold Py.next_char.
    rewrite byte_to_byte by lia. cbn zeta.
    repeat decide_test. cbn [andb].
    rewrite !continuation_to_byte by done. cbn zeta.
    replace (((0xE0 + q2 - 0xE0) * 64 + r2) * 64 + r1)%N with cp by lia.
    unfold Py.encodes. rewrite Hsur. repeat decide_test. by cbn [andb negb]. }
  rewrite !append_cons. unfold Py.next_char.
  rewrite byte_to_byte by lia. cbn zeta.
  repeat decide_test. cbn [andb].
  rewrite !continuation_to_byte by done. cbn zeta.
  replace ((((0xF0 + q3 - 0xF0) * 64 + r3) * 64 + r2) * 64 + r1)%N with cp by lia.
  unfold Py.encodes. rewrite Hsur. repeat decide_test. by cbn [andb negb].
Qed.

Lemma utf8_cons (cp : N) (u : list N) :
  utf8 (cp :: u) = utf8_char cp +:+ utf8 u.
Proof. reflexivity. Qed.

Lemma utf8_char_nonempty (cp : N) (s : string) :
  Py.is_empty (utf8_char cp +:+ s) = false.
Proof. unfold utf8_char. by repeat destruct (_ <? _)%N. Qed.

Lemma space_prefix_utf8 (cp : N) (s : string) :
  scalar cp = true ->
  Py.space_prefix (utf8_char cp +:+ s)
  = if Py.isspace cp then Some s else None.
Proof.
  intros H. unfold Py.space_prefix. by rewrite next_char_utf8_char.
Qed.

Lemma lstrip_utf8 (u : list N) :
  Forall (fun cp => scalar cp = true) u ->
  Py.lstrip (utf8 u) = utf8 (drop_spaces u).
Proof.
  induction 1 as [|cp u Hcp Hu IH]; [done|].
  rewrite utf8_cons, lstrip_unfold, space_prefix_utf8 by done.
  cbn [drop_spaces]. by destruct (Py.isspace cp).
Qed.

Lemma drop_spaces_nil (u : list N) :
  drop_spaces u = [] <-> forallb Py.isspace u = true.
Proof.
  induction u as [|cp u IH]; [done|]. cbn [drop_spaces forallb].
  destruct (Py.isspace cp); [done|]. by split.
Qed.

Lemma drop_spaces_app (l m : list N) :
  drop_spaces (l ++ m)
  = if forallb Py.isspace l then drop_spaces m else drop_spaces l ++ m.
Proof.
  induction l as [|cp l IH]; [done|]. cbn [app drop_spaces forallb].
  by destruct (Py.isspace cp).
Qed.

Lemma forallb_reverse (f : N -> bool) (l : list N) :
  forallb f (reverse l) = forallb f l.
Proof.
  induction l as [|x l IH]; [done|].
  rewrite reverse_cons, forallb_app, IH. cbn. by destruct (f x), (forallb f l).
Qed.

Lemma rstrip_chars_cons (cp : N) (u : list N) :
  reverse (drop_spaces (reverse (cp :: u)))
  = if forallb Py.isspace (cp :: u) then []
    else cp :: reverse (drop_spaces (reverse u)).
Proof.
  rewrite reverse_cons, drop_spaces_app, forallb_reverse. cbn [forallb].
  destruct (forallb Py.isspace u) eqn:Hu.
  - rewrite andb_true_r.
    rewrite (proj2 (drop_spaces_nil (reverse u))) by (by rewrite forallb_reverse).
    cbn [drop_spaces]. by destruct (Py.isspace cp).
  - rewrite andb_false_r. by rewrite reverse_app.
Qed.

Lemma append_empty (s : string) : "" +:+ s = s.
Proof. reflexivity. Qed.

Lemma rstrip_cons (c : ascii) (s : string) :
  Py.rstrip (String c s)
  = if Py.is_empty (Py.lstrip (String c s)) then EmptyString
    else String c (Py.rstrip s).
Proof. reflexivity. Qed.

Lemma rstrip_continuation (c : ascii) (x : N) (s : string) :
  Py.continuation c = Some x ->
  Py.rstrip (String c s) = String c (Py.rstrip s).
Proof.
  intros H. cbn [Py.rstrip]. rewrite lstrip_unfold. unfold Py.space_prefix.
  by rewrite (continuation_next_char _ _ _ H).
Qed.

Lemma rstrip_utf8_char (cp : N) (s : string) :
  Py.rstrip (utf8_char cp +:+ s)
  = if Py.is_empty (Py.lstrip (utf8_char cp +:+ s)) then EmptyString
    else utf8_char cp +:+ Py.rstrip s.
Proof.
  pose proof (N.mod_lt cp 64 ltac:(lia)) as M1.
  pose proof (N.mod_lt (cp / 64) 64 ltac:(lia)) as M2.
  pose proof (N.mod_lt (cp / 4096) 64 ltac:(lia)) as M3.
  unfold utf8_char.
  repeat destruct (_ <? _)%N; rewrite !append_cons;
    (etransitivity; [apply rstrip_cons|]);
    destruct (Py.is_empty _); try done;
    repeat first
      [ rewrite (rstrip_continuation _ _ _ (continuation_to_byte _ M1))
      | rewrite (rstrip_continuation _ _ _ (continuation_to_byte _ M2))
      | rewrite (rstrip_continuation _ _ _ (continuation_to_byte _ M3)) ];
    by rewrite !append_empty.
Qed.

Lemma is_empty_utf8 (u : list N) :
  Py.is_empty (utf8 u) = match u with [] => true | _ :: _ => false end.
Proof. destruct u as [|cp u]; [done|]. apply utf8_char_nonempty. Qed.

Lemma rstrip_utf8 (u : list N) :
  Forall (fun cp => scalar cp = true) u ->
  Py.rstrip (utf8 u) = utf8 (reverse (drop_spaces (reverse u))).
Proof.
  induction 1 as [|cp u Hcp Hu IH]; [done|].
  rewrite rstrip_chars_cons, utf8_cons, rstrip_utf8_char, IH.
  rewrite <- utf8_cons, lstrip_utf8, is_empty_utf8 by (by constructor).
  destruct (forallb Py.isspace (cp :: u)) eqn:Hs.
  - by rewrite (proj2 (drop_spaces_nil _) Hs).
  - destruct (drop_spaces (cp :: u)) eqn:Hd; [|done].
    apply drop_spaces_nil in Hd. congruence.
Qed.

Lemma drop_spaces_scalar (u : list N) :
  Forall (fun cp => scalar cp = true) u ->
  Forall (fun cp => scalar cp = true) (drop_spaces u).
Proof.
  induction 1 as [|cp u Hcp Hu IH]; [done|]. cbn [drop_spaces].
  destruct (Py.isspace cp); [done|]. by constructor.
Qed.

(** [Py.strip] on the encoding of a string is the encoding of the
    string without the white space at its two ends. *)
Lemma strip_utf8 (u : list N) :
  Forall (fun cp => scalar cp = true) u ->
  Py.strip (utf8 u) = utf8 (strip_chars u).
Proof.
  intros Hu. unfold Py.strip, strip_chars.
  rewrite lstrip_utf8 by done. apply rstrip_utf8. by apply drop_spaces_scalar.
Qed.

(** The pipelines on a [uri] with the white space of Unicode. *)
Example create_blank_unicode_uri :
  create example_claims example_user (JObj example_blank_uri)
  = Raise (ValidationError "uri: 'uri' is a required property").
Proof. by vm_compute. Qed.

Example update_blank_unicode_uri :
  update example_claims example_stored_uri (JStr "abc") (JObj example_blank_uri)
  = Raise (ValidationError "uri: 'uri' is a required property").
Proof. by vm_compute. Qed.

Example create_padded_unicode_uri :
  (out ← create example_claims example_user (JObj example_padded_uri);
   Ok (out !! "target_uri"))
  = Ok (Some (JStr "http://example.com/page")).
Proof. by vm_compute. Qed.

Example update_padded_unicode_uri :
  (out ← update example_claims example_stored_uri (JStr "abc")
           (JObj example_padded_uri);
   Ok (out !! "target_uri"))
  = Ok (Some (JStr "http://example.com/page")).
Proof. by vm_compute. Qed.


(** ** The structural schema *)

Lemma schema_agree (d d' : gmap string json) :
  (forall k, k ∈ schema_keys -> d' !! k = d !! k) ->
  AnnotationSchema.schema (JObj d') = AnnotationSchema.schema (JObj d).
Proof.
  intros Hk.
  unfold AnnotationSchema.schema, Schema.all_of, Schema.property.
  cbn [forallb Schema.type_object].
  rewrite !Hk by (unfold schema_keys; set_solver). done.
Qed.

Lemma schema_not_object (v : json) :
  not_object v -> AnnotationSchema.schema v = false.
Proof. by destruct v. Qed.

Lemma forallb_type_string (l : list json) :
  forallb Schema.type_string l = true -> exists ss : list string, l = JStr <$> ss.
Proof.
  induction l as [|v l IH]; [by exists []|]. cbn [forallb].
  intros [Hv Hl]%andb_true_iff. destruct (IH Hl) as [ss ->].
  destruct (type_string_inv _ Hv) as [s ->]. by exists (s :: ss).
Qed.

Lemma string_array_inv (v : json) :
  AnnotationSchema.string_array v = true -> string_list v.
Proof.
  unfold AnnotationSchema.string_array, Schema.all_of. cbn [forallb].
  rewrite !andb_true_iff. intros (Ha & Hi & _).
  destruct (type_array_inv _ Ha) as [l ->]. cbn [Schema.items] in Hi.
  destruct (forallb_type_string _ Hi) as [ss ->]. by exists ss.
Qed.

Lemma drop_prefix_Some (p s rest : string) :
  Re.drop_prefix p s = Some rest -> s = p +:+ rest.
Proof.
  revert s. induction p as [|a p IH]; intros s; cbn [Re.drop_prefix].
  - by intros [= ->].
  - destruct s as [|b s]; [done|]. case_bool_decide as Hab; [|done].
    intros H. rewrite (IH _ H). by subst.
Qed.

Lemma principal_inv (s : string) : Re.principal s = true -> principal s.
Proof.
  unfold Re.principal, Re.alternatives. cbn [existsb].
  rewrite orb_false_r. intros [H|H]%orb_true_iff.
  - destruct (Re.drop_prefix "acct:" s) as [rest|] eqn:Hd; [|done].
    exists rest. split; [by destruct rest|].
    left. by apply drop_prefix_Some.
  - destruct (Re.drop_prefix "group:" s) as [rest|] eqn:Hd; [|done].
    exists rest. split; [by destruct rest|].
    right. by apply drop_prefix_Some.
Qed.

Lemma readers_inv (l : list json) :
  forallb (Schema.all_of [Schema.type_string; Schema.pattern Re.principal]) l = true ->
  exists ss : list string, l = JStr <$> ss /\ Forall principal ss.
Proof.
  induction l as [|v l IH]; [by exists []|]. cbn [forallb].
  intros [Hv Hl]%andb_true_iff. destruct (IH Hl) as (ss & -> & Hss).
  unfold Schema.all_of in Hv. cbn [forallb] in Hv.
  rewrite !andb_true_iff in Hv. destruct Hv as (Ht & Hp & _).
  destruct (type_string_inv _ Ht) as [s ->]. cbn in Hp.
  exists (s :: ss). split; [done|]. constructor; [|done]. by apply principal_inv.
Qed.

Lemma permissions_readers (d : gmap string json) (v : json) :
  valid d ->
  d !! "permissions" = Some v ->
  exists p readers,
    v = JObj p
    /\ p !! "read" = Some (JArr (JStr <$> readers))
    /\ Forall principal readers.
Proof.
  intros Hv Hp. apply valid_schema in Hv.
  unfold AnnotationSchema.schema, Schema.all_of in Hv. cbn [forallb] in Hv.
  rewrite !andb_true_iff in Hv.
  destruct Hv as (_ & _ & _ & Hperm & _).
  apply (property_inv _ _ _ _ Hperm) in Hp as Hs.
  unfold AnnotationSchema.permissions, Schema.all_of in Hs. cbn [forallb] in Hs.
  rewrite !andb_true_iff in Hs. destruct Hs as (Ho & Hpat & Hreq & _).
  apply type_object_inv in Ho as [p ->].
  unfold Schema.required, Py.has_key in Hreq.
  destruct (p !! "read") as [x|] eqn:Hread; [|done].
  unfold Schema.pattern_property in Hpat.
  rewrite forallb_forall in Hpat.
  specialize (Hpat ("read", x)).
  rewrite <- list_elem_of_In, elem_of_map_to_list in Hpat.
  specialize (Hpat Hread). cbn [fst snd] in Hpat.
  replace (Re.action "read") with true in Hpat by (by vm_compute).
  unfold Schema.all_of in Hpat. cbn [forallb] in Hpat.
  rewrite !andb_true_iff in Hpat. destruct Hpat as (Ha & Hit & _).
  apply type_array_inv in Ha as [r ->]. cbn [Schema.items] in Hit.
  destruct (readers_inv _ Hit) as (ss & -> & Hss).
  by exists p, ss.
Qed.

(** X16.  In a valid payload [permissions] is an object whose [read] is
    a list of strings, each "acct:" or "group:" followed by at least one
    character. *)
Theorem valid_permissions_readers (d : gmap string json) (v : json) :
  valid d ->
  d !! "permissions" = Some v ->
  exists p readers,
    v = JObj p
    /\ p !! "read" = Some (JArr (JStr <$> readers))
    /\ Forall principal readers.
Proof. apply permissions_readers. Qed.

Section Outcomes.

Context (claims : document_claims).

Lemma create_invalid uid (data : json) :
  AnnotationSchema.schema data = false ->
  create claims uid data = Raise SchemaValidationError.
Proof. intros H. unfold create, AnnotationSchema.validate. by rewrite H. Qed.

Lemma update_invalid existing groupid (data : json) :
  AnnotationSchema.schema data = false ->
  update claims existing groupid data = Raise SchemaValidationError.
Proof. intros H. unfold update, AnnotationSchema.validate. by rewrite H. Qed.

Lemma schema_true_valid (data : json) :
  AnnotationSchema.schema data = true -> exists d, data = JObj d /\ valid d.
Proof.
  intros H. destruct data; try done. eexists; split; [done|].
  by apply valid_schema.
Qed.

(** X1.  Whatever JSON value it is given, [create] raises nothing but
    the two validation errors: the structural one exactly when the
    schema rejects the value, and otherwise at most the error about
    [uri].  No [KeyError], [TypeError] or [AttributeError] escapes. *)
Theorem create_outcomes (authenticated_userid data : json) :
  (create claims authenticated_userid data = Raise SchemaValidationError
   <-> AnnotationSchema.schema data = false)
  /\ (forall e, create claims authenticated_userid data = Raise e ->
        e = SchemaValidationError
        \/ e = ValidationError "uri: 'uri' is a required property").
Proof.
  destruct (AnnotationSchema.schema data) eqn:Hs.
  - destruct (schema_true_valid _ Hs) as (d & -> & Hv).
    destruct (uri_missing_or_blank d) eqn:Hu.
    + rewrite (create_blank claims _ _ Hv Hu). split; [done|].
      intros e [= <-]. by right.
    + destruct (create_ok claims authenticated_userid _ Hv Hu)
        as (s & out & _ & _ & -> & _).
      split; [done|]. by intros e.
  - rewrite (create_invalid _ _ Hs). split; [done|]. intros e [= <-]. by left.
Qed.

(** X2.  The same for [update], for whatever stored URI and group id
    the caller passes. *)
Theorem update_outcomes (existing_target_uri : json) (groupid : string)
    (data : json) :
  (update claims existing_target_uri (JStr groupid) data
     = Raise SchemaValidationError
   <-> AnnotationSchema.schema data = false)
  /\ (forall e,
        update claims existing_target_uri (JStr groupid) data = Raise e ->
        e = SchemaValidationError
        \/ e = ValidationError "uri: 'uri' is a required property").
Proof.
  destruct (AnnotationSchema.schema data) eqn:Hs.
  - destruct (schema_true_valid _ Hs) as (d & -> & Hv).
    destruct (blank_uri d) eqn:Hu.
    + rewrite (update_blank claims _ _ _ Hv Hu). split; [done|].
      intros e [= <-]. by right.
    + destruct (update_run claims existing_target_uri groupid _ Hv Hu)
        as (out & -> & _).
      split; [done|]. by intros e.
  - rewrite (update_invalid _ _ _ Hs). split; [done|]. intros e [= <-]. by left.
Qed.

(** X3.  A payload that is not a JSON object (a list, a string, a
    number, a boolean, null) is rejected by both pipelines with the
    structural validation error. *)
Theorem non_object_payload_rejected
    (authenticated_userid existing_target_uri groupid data : json) :
  not_object data ->
  create claims authenticated_userid data = Raise SchemaValidationError
  /\ update claims existing_target_uri groupid data = Raise SchemaValidationError.
Proof.
  intros H%schema_not_object.
  by rewrite (create_invalid _ _ H), (update_invalid _ _ _ H).
Qed.

Lemma create_agree uid (d d' : gmap string json) :
  (forall k, k ∈ schema_keys -> d' !! k = d !! k) ->
  without protected_fields d' = without protected_fields d ->
  create claims uid (JObj d') = create claims uid (JObj d).
Proof.
  intros Hk Hw. unfold create, AnnotationSchema.validate.
  rewrite (schema_agree _ _ Hk).
  destruct (AnnotationSchema.schema (JObj d)); [|done].
  run. by rewrite !remove_protected_without, Hw.
Qed.

Lemma update_agree existing groupid (d d' : gmap string json) :
  (forall k, k ∈ schema_keys -> d' !! k = d !! k) ->
  without protected_fields d' = without protected_fields d ->
  update claims existing groupid (JObj d') = update claims existing groupid (JObj d).
Proof.
  intros Hk Hw. unfold update, AnnotationSchema.validate.
  rewrite (schema_agree _ _ Hk).
  destruct (AnnotationSchema.schema (JObj d)); [|done].
  run. by rewrite !remove_protected_without, Hw.
Qed.

Lemma protected_not_schema_key (f : string) :
  f ∈ protected_fields -> f ∉ schema_keys.
Proof.
  revert f. apply Forall_forall.
  apply (bool_decide_unpack (Forall (fun f => f ∉ schema_keys) protected_fields)).
  by vm_compute.
Qed.

Lemma without_insert (keys : list string) (d : gmap string json) k v :
  k ∈ keys -> without keys (<[k := v]> d) = without keys d.
Proof.
  intros Hk. apply map_eq. intros i. rewrite !lookup_without.
  case_bool_decide as Hi; [done|]. apply lookup_insert_ne. by intros ->.
Qed.

(** X4.  A protected field in the payload has no influence at all:
    [create] and [update] return on the payload with the field, whatever
    its value, what they return on the payload without it. *)
Theorem protected_fields_ignored
    (authenticated_userid existing_target_uri groupid : json)
    (d : gmap string json) (f : string) (v : json) :
  f ∈ protected_fields ->
  create claims authenticated_userid (JObj (<[f := v]> d))
  = create claims authenticated_userid (JObj (delete f d))
  /\ update claims existing_target_uri groupid (JObj (<[f := v]> d))
     = update claims existing_target_uri groupid (JObj (delete f d)).
Proof.
  intros Hf. pose proof (protected_not_schema_key _ Hf) as Hns.
  assert (forall k, k ∈ schema_keys -> <[f := v]> d !! k = delete f d !! k) as Hk.
  { intros k Hk. assert (f <> k) by (by intros ->).
    by rewrite lookup_insert_ne, lookup_delete_ne. }
  assert (without protected_fields (<[f := v]> d)
          = without protected_fields (delete f d)) as Hw.
  { by rewrite without_insert, without_delete. }
  split; [by apply create_agree | by apply update_agree].
Qed.

End Outcomes.

Lemma selectors_inv (v : json) :
  Schema.all_of
    [ Schema.type_array
    ; Schema.items (Schema.all_of [ Schema.type_object
                                  ; Schema.property "type" Schema.type_string
                                  ; Schema.required "type" ]) ] v = true ->
  selector_list v.
Proof.
  unfold Schema.all_of at 1. cbn [forallb]. rewrite !andb_true_iff.
  intros (Ha & Hit & _). destruct (type_array_inv _ Ha) as [l ->].
  exists l. split; [done|]. cbn [Schema.items] in Hit.
  induction l as [|x l IH]; [constructor|].
  cbn [forallb] in Hit. apply andb_true_iff in Hit as [Hx Hl].
  constructor; [|by apply IH].
  unfold Schema.all_of in Hx. cbn [forallb] in Hx.
  rewrite !andb_true_iff in Hx. destruct Hx as (Ho & Ht & Hr & _).
  destruct (type_object_inv _ Ho) as [m ->].
  unfold Schema.required, Py.has_key in Hr. unfold Schema.property in Ht.
  destruct (m !! "type") as [t|] eqn:Hm; [|done].
  destruct (type_string_inv _ Ht) as [ts ->]. by exists m, ts.
Qed.

Lemma target_first_inv (v : json) :
  AnnotationSchema.target v = true ->
  exists l, v = JArr l
    /\ forall t, head l = Some t ->
         exists m, t = JObj m
           /\ forall sel, m !! "selector" = Some sel -> selector_list sel.
Proof.
  unfold AnnotationSchema.target, Schema.all_of at 1. cbn [forallb].
  rewrite !andb_true_iff. intros (Ha & Hit & _).
  destruct (type_array_inv _ Ha) as [l ->]. exists l. split; [done|].
  intros t Ht. destruct l as [|t' l]; [done|]. injection Ht as ->.
  cbn [Schema.items forallb] in Hit. apply andb_true_iff in Hit as [Ht _].
  unfold Schema.all_of at 1 in Ht. cbn [forallb] in Ht.
  rewrite !andb_true_iff in Ht. destruct Ht as (Ho & Hs & _).
  destruct (type_object_inv _ Ho) as [m ->]. exists m. split; [done|].
  intros sel Hsel. apply selectors_inv. by eapply property_inv.
Qed.

Lemma valid_typed (d : gmap string json) : valid d -> typed d.
Proof.
  rewrite valid_schema.
  unfold AnnotationSchema.schema, Schema.all_of. cbn [forallb].
  rewrite !andb_true_iff.
  intros (_ & Hdoc & Hgroup & Hperm & Hrefs & Htags & Htarget & Htext & Huri & _).
  split; intros v Hv.
  - apply type_string_inv. eapply property_inv; [exact Htext|done].
  - apply string_array_inv. eapply property_inv; [exact Htags|done].
  - apply string_array_inv. eapply property_inv; [exact Hrefs|done].
  - apply target_first_inv. eapply property_inv; [exact Htarget|done].
Qed.

Lemma target_selectors_typed (l : list json) (sel : json) :
  (forall t, head l = Some t ->
     exists m, t = JObj m
       /\ forall sel, m !! "selector" = Some sel -> selector_list sel) ->
  _target_selectors (JArr l) = Ok sel ->
  selector_list sel.
Proof.
  intros H. destruct l as [|t l].
  - intros [= <-]. exists []. by split.
  - destruct (H t) as (m & -> & Hm); [done|].
    rewrite target_selectors_first. unfold field_or.
    destruct (m !! "selector") as [x|] eqn:Hx.
    + intros [= <-]. by apply Hm.
    + intros [= <-]. exists []. by split.
Qed.

Ltac mem := by repeat constructor.
Ltac absurd_mem H := exfalso; apply (bool_decide_pack _) in H; by vm_compute in H.

Section CreateOutput.

Context (claims : document_claims).

(** X5.  The [userid] of a created annotation is the authenticated
    user of the request.  [create], unlike [update], does not discard a
    [userid] or [groupid] that the client sent: both are carried along
    in [extra]. *)
Theorem create_userid_from_request (authenticated_userid : json)
    (d : gmap string json) :
  valid d ->
  uri_missing_or_blank d = false ->
  exists out extra,
    create claims authenticated_userid (JObj d) = Ok out
    /\ out !! "userid" = Some authenticated_userid
    /\ out !! "extra" = Some (JObj extra)
    /\ extra !! "userid" = d !! "userid"
    /\ extra !! "groupid" = d !! "groupid".
Proof.
  intros Hv Hu.
  destruct (create_ok claims authenticated_userid _ Hv Hu)
    as (s & out & _ & _ & Hout & Hpost).
  eexists out, _. split; [done|]. split; [apply Hpost|].
  split; [apply Hpost|]. split; by apply lookup_without_ne.
Qed.

(** X6.  [create] passes [text], [tags] and [references] through
    unchanged and fills in the empty string, the empty list and the
    empty list for the ones that are missing. *)
Theorem create_defaults (authenticated_userid : json) (d : gmap string json) :
  valid d ->
  uri_missing_or_blank d = false ->
  exists out,
    create claims authenticated_userid (JObj d) = Ok out
    /\ out !! "text" = Some (default (JStr "") (d !! "text"))
    /\ out !! "tags" = Some (default (JArr []) (d !! "tags"))
    /\ out !! "references" = Some (default (JArr []) (d !! "references")).
Proof.
  intros Hv Hu.
  destruct (create_ok claims authenticated_userid _ Hv Hu)
    as (s & out & _ & _ & Hout & Hpost).
  exists out. split; [done|].
  rewrite (cp_text _ _ _ _ _ Hpost), (cp_tags _ _ _ _ _ Hpost),
    (cp_references _ _ _ _ _ Hpost).
  unfold field_or. by destruct (d !! "text"), (d !! "tags"), (d !! "references").
Qed.

(** X7.  The keys of the output of [create]: always [userid],
    [target_uri], [text], [tags], [references], [shared], [document] and
    [extra]; [groupid] unless the payload is a reply; [target_selectors]
    when the payload has a [target]; no other key. *)
Theorem create_output_keys (authenticated_userid : json) (d : gmap string json) :
  valid d ->
  uri_missing_or_blank d = false ->
  exists out,
    create claims authenticated_userid (JObj d) = Ok out
    /\ forall k,
         is_Some (out !! k) <->
         k ∈ ["userid"; "target_uri"; "text"; "tags"; "references"; "shared";
              "document"; "extra"]
         \/ (k = "groupid" /\ reply d = false)
         \/ (k = "target_selectors" /\ is_Some (d !! "target")).
Proof.
  intros Hv Hu.
  destruct (create_ok claims authenticated_userid _ Hv Hu)
    as (s & out & _ & _ & Hout & Hpost).
  exists out. split; [done|]. intros k.
  destruct (decide (k ∈ create_outputs)) as [Hk|Hk].
  - unfold create_outputs in Hk. rewrite !elem_of_cons, elem_of_nil in Hk.
    destruct Hk as [->|[->|[->|[->|[->|[->|[->|[->|[->|[->|[]]]]]]]]]]].
    + rewrite (cp_userid _ _ _ _ _ Hpost). split; [left; mem | done].
    + rewrite (cp_target_uri _ _ _ _ _ Hpost). split; [left; mem | done].
    + rewrite (cp_text _ _ _ _ _ Hpost). split; [left; mem | done].
    + rewrite (cp_tags _ _ _ _ _ Hpost). split; [left; mem | done].
    + rewrite (cp_groupid _ _ _ _ _ Hpost). unfold reply.
      destruct (Py.truthy _); split.
      * by intros [? ?].
      * intros [H|[[_ ?]|[? _]]]; [|done..]. absurd_mem H.
      * intros _. right. by left.
      * done.
    + rewrite (cp_references _ _ _ _ _ Hpost). split; [left; mem | done].
    + destruct (cp_shared _ _ _ _ _ Hpost) as (b & -> & _).
      split; [left; mem | done].
    + pose proof (cp_target_selectors _ _ _ _ _ Hpost) as Ht.
      destruct (d !! "target").
      * destruct Ht as (sel & _ & ->). split; [|done]. intros _. right. by right.
      * rewrite Ht. split; [by intros [? ?]|].
        intros [H|[[? _]|[_ [? ?]]]]; [|done..]. absurd_mem H.
    + rewrite (cp_document _ _ _ _ _ Hpost). split; [left; mem | done].
    + rewrite (cp_extra _ _ _ _ _ Hpost). split; [left; mem | done].
  - rewrite (cp_others _ _ _ _ _ Hpost) by done. split; [by intros [? ?]|].
    intros [H|[[-> _]|[-> _]]]; exfalso; apply Hk; [|mem..].
    revert H. unfold create_outputs. rewrite !elem_of_cons, !elem_of_nil. tauto.
Qed.

End CreateOutput.

Section Documents.

Context (claims : document_claims).

Lemma create_post_eq uid (d d' : gmap string json) s out out' :
  create_post claims uid d s out ->
  create_post claims uid d' s out' ->
  (forall k, k ∈ ["text"; "tags"; "group"; "references"; "permissions"; "target"] ->
             d' !! k = d !! k) ->
  field_or "document" (JObj ∅) d' = field_or "document" (JObj ∅) d ->
  without (protected_fields ++ create_consumed) d'
  = without (protected_fields ++ create_consumed) d ->
  out' = out.
Proof.
  intros Hp Hp' Hk Hdoc Hw.
  assert (d' !! "text" = d !! "text") as Htext by (apply Hk; mem).
  assert (d' !! "tags" = d !! "tags") as Htags by (apply Hk; mem).
  assert (d' !! "group" = d !! "group") as Hgroup by (apply Hk; mem).
  assert (d' !! "references" = d !! "references") as Hrefs by (apply Hk; mem).
  assert (d' !! "permissions" = d !! "permissions") as Hperm by (apply Hk; mem).
  assert (d' !! "target" = d !! "target") as Htarget by (apply Hk; mem).
  apply map_eq. intros k.
  destruct (decide (k ∈ create_outputs)) as [Hin|Hin];
    [|by rewrite (cp_others _ _ _ _ _ Hp), (cp_others _ _ _ _ _ Hp')].
  unfold create_outputs in Hin. rewrite !elem_of_cons, elem_of_nil in Hin.
  destruct Hin as [->|[->|[->|[->|[->|[->|[->|[->|[->|[->|[]]]]]]]]]]].
  - by rewrite (cp_userid _ _ _ _ _ Hp), (cp_userid _ _ _ _ _ Hp').
  - by rewrite (cp_target_uri _ _ _ _ _ Hp), (cp_target_uri _ _ _ _ _ Hp').
  - rewrite (cp_text _ _ _ _ _ Hp), (cp_text _ _ _ _ _ Hp').
    unfold field_or. by rewrite Htext.
  - rewrite (cp_tags _ _ _ _ _ Hp), (cp_tags _ _ _ _ _ Hp').
    unfold field_or. by rewrite Htags.
  - rewrite (cp_groupid _ _ _ _ _ Hp), (cp_groupid _ _ _ _ _ Hp').
    unfold group_of, field_or. by rewrite Hrefs, Hgroup.
  - rewrite (cp_references _ _ _ _ _ Hp), (cp_references _ _ _ _ _ Hp').
    unfold field_or. by rewrite Hrefs.
  - destruct (cp_shared _ _ _ _ _ Hp) as (b & -> & Hb).
    destruct (cp_shared _ _ _ _ _ Hp') as (b' & -> & Hb').
    unfold group_of, field_or in Hb, Hb'. rewrite Hperm, Hgroup in Hb'.
    destruct (d !! "permissions"); congruence.
  - pose proof (cp_target_selectors _ _ _ _ _ Hp) as Ht.
    pose proof (cp_target_selectors _ _ _ _ _ Hp') as Ht'.
    rewrite Htarget in Ht'. destruct (d !! "target"); [|congruence].
    destruct Ht as (sel & Hsel & ->). destruct Ht' as (sel' & Hsel' & ->).
    congruence.
  - rewrite (cp_document _ _ _ _ _ Hp), (cp_document _ _ _ _ _ Hp').
    by rewrite Hdoc.
  - rewrite (cp_extra _ _ _ _ _ Hp), (cp_extra _ _ _ _ _ Hp'). by rewrite Hw.
Qed.

(** X10.  For [create] an empty [document] is the same as none: the
    results on the two payloads are equal.  For [update] it is not: with
    the empty [document] the output has a [document] key, without it
    the output has none. *)
Theorem empty_document_create_update
    (authenticated_userid existing_target_uri : json) (groupid : string)
    (d : gmap string json) :
  valid d ->
  d !! "document" = Some (JObj ∅) ->
  create claims authenticated_userid (JObj d)
  = create claims authenticated_userid (JObj (delete "document" d))
  /\ (blank_uri d = false ->
      exists out out',
        update claims existing_target_uri (JStr groupid) (JObj d) = Ok out
        /\ update claims existing_target_uri (JStr groupid)
                  (JObj (delete "document" d)) = Ok out'
        /\ is_Some (out !! "document")
        /\ out' !! "document" = None).
Proof.
  intros Hv Hdoc. pose proof (valid_delete _ "document" Hv) as Hv'.
  split.
  - destruct (uri_missing_or_blank d) eqn:Hu.
    + rewrite (create_blank claims _ _ Hv Hu). symmetry.
      apply create_blank; [done|]. unfold uri_missing_or_blank in *.
      by rewrite lookup_delete_ne.
    + destruct (create_ok claims authenticated_userid _ Hv Hu)
        as (s & out & Hs & Hne & -> & Hpost).
      assert (delete "document" d !! "uri" = Some (JStr s)) as Hs'
        by (by rewrite lookup_delete_ne).
      destruct (create_run claims authenticated_userid _ _ Hv' Hs' Hne)
        as (out' & -> & Hpost').
      f_equal. symmetry. eapply create_post_eq; [done..| | |].
      * intros k Hk. apply lookup_delete_ne. intros <-. absurd_mem Hk.
      * unfold field_or. by rewrite lookup_delete_eq, Hdoc.
      * apply without_delete. unfold create_consumed, protected_fields. mem.
  - intros Hu.
    assert (blank_uri (delete "document" d) = false) as Hu'.
    { unfold blank_uri in *. by rewrite lookup_delete_ne. }
    destruct (update_run claims existing_target_uri groupid _ Hv Hu)
      as (out & Hout & Hpost).
    destruct (update_run claims existing_target_uri groupid _ Hv' Hu')
      as (out' & Hout' & Hpost').
    exists out, out'. split; [done|]. split; [done|].
    rewrite (up_document _ _ _ _ _ Hpost), (up_document _ _ _ _ _ Hpost').
    rewrite Hdoc, lookup_delete_eq. by split.
Qed.

(** X11.  [update] copies [text] and [tags] when and as the client
    sent them, without defaults, and projects a [document] sent together
    with a [uri] with the trimmed new [uri] as claimant. *)
Theorem update_copies_what_was_sent (existing_target_uri : json)
    (groupid : string) (d : gmap string json) :
  valid d ->
  blank_uri d = false ->
  exists out,
    update claims existing_target_uri (JStr groupid) (JObj d) = Ok out
    /\ out !! "text" = d !! "text"
    /\ out !! "tags" = d !! "tags"
    /\ (forall doc s,
          d !! "document" = Some doc -> d !! "uri" = Some (JStr s) ->
          out !! "document"
          = Some (_document claims doc (JStr (Py.strip s)))).
Proof.
  intros Hv Hu.
  destruct (update_run claims existing_target_uri groupid _ Hv Hu)
    as (out & Hout & Hpost).
  exists out. split; [done|]. split; [apply Hpost|]. split; [apply Hpost|].
  intros doc s Hdoc Hs. rewrite (up_document _ _ _ _ _ Hpost).
  unfold trimmed_uri. by rewrite Hdoc, Hs.
Qed.

(** X12.  The keys of the output of [update]: [extra] always, and
    each of [target_uri], [shared], [target_selectors], [text], [tags],
    [document] exactly when the payload has [uri], [permissions],
    [target], [text], [tags], [document]; no other key. *)
Theorem update_output_keys (existing_target_uri : json) (groupid : string)
    (d : gmap string json) :
  valid d ->
  blank_uri d = false ->
  exists out,
    update claims existing_target_uri (JStr groupid) (JObj d) = Ok out
    /\ forall k,
         is_Some (out !! k) <->
         k = "extra"
         \/ (k = "target_uri" /\ is_Some (d !! "uri"))
         \/ (k = "shared" /\ is_Some (d !! "permissions"))
         \/ (k = "target_selectors" /\ is_Some (d !! "target"))
         \/ (k ∈ ["text"; "tags"; "document"] /\ is_Some (d !! k)).
Proof.
  intros Hv Hu. pose proof (valid_shaped _ Hv) as Hsh.
  destruct (update_run claims existing_target_uri groupid _ Hv Hu)
    as (out & Hout & Hpost).
  exists out. split; [done|]. intros k.
  destruct (decide (k ∈ update_outputs)) as [Hk|Hk].
  - unfold update_outputs in Hk. rewrite !elem_of_cons, elem_of_nil in Hk.
    destruct Hk as [->|[->|[->|[->|[->|[->|[->|[]]]]]]]].
    + rewrite (up_target_uri _ _ _ _ _ Hpost). unfold trimmed_uri.
      destruct (d !! "uri") as [u|] eqn:Hd.
      * destruct (shaped_uri _ Hsh _ Hd) as [s ->]. split; [|done].
        intros _. right. by left.
      * split; [by intros [? ?]|].
        intros [?|[[_ [? ?]]|[[? _]|[[? _]|[H _]]]]]; try done. absurd_mem H.
    + pose proof (up_shared _ _ _ _ _ Hpost) as Hp.
      destruct (d !! "permissions").
      * destruct Hp as (b & _ & ->). split; [|done]. intros _. right. right. by left.
      * rewrite Hp. split; [by intros [? ?]|].
        intros [?|[[? _]|[[_ [? ?]]|[[? _]|[H _]]]]]; try done. absurd_mem H.
    + pose proof (up_target_selectors _ _ _ _ _ Hpost) as Hp.
      destruct (d !! "target").
      * destruct Hp as (b & _ & ->). split; [|done].
        intros _. right. right. right. by left.
      * rewrite Hp. split; [by intros [? ?]|].
        intros [?|[[? _]|[[? _]|[[_ [? ?]]|[H _]]]]]; try done. absurd_mem H.
    + rewrite (up_text _ _ _ _ _ Hpost). split.
      * intros ?. do 4 right. split; [mem|done].
      * by intros [?|[[? _]|[[? _]|[[? _]|[_ ?]]]]].
    + rewrite (up_tags _ _ _ _ _ Hpost). split.
      * intros ?. do 4 right. split; [mem|done].
      * by intros [?|[[? _]|[[? _]|[[? _]|[_ ?]]]]].
    + rewrite (up_document _ _ _ _ _ Hpost). split.
      * intros ?%fmap_is_Some. do 4 right. split; [mem|done].
      * intros [?|[[? _]|[[? _]|[[? _]|[_ ?]]]]]; try done.
        by apply fmap_is_Some.
    + rewrite (up_extra _ _ _ _ _ Hpost). split; [by left | done].
  - rewrite (up_others _ _ _ _ _ Hpost) by done. split; [by intros [? ?]|].
    intros H. exfalso. apply Hk.
    destruct H as [->|[[-> _]|[[-> _]|[[-> _]|[H _]]]]]; [mem..|].
    revert H. unfold update_outputs. rewrite !elem_of_cons, !elem_of_nil. tauto.
Qed.

End Documents.

Lemma shared_true_group (p : gmap string json) (readers : list string) (g : string) :
  p !! "read" = Some (JArr (JStr <$> readers)) ->
  Forall principal readers ->
  _shared (JObj p) (JStr g) = Ok (JBool true) ->
  g <> "" /\ readers = ["group:" +:+ g].
Proof.
  intros Hread Hall. rewrite (shared_total _ _ _ Hread).
  intros [= H].
  change (Py.eq_str_list (JArr (JStr <$> readers)) ["group:" +:+ g] = true) in H.
  apply eq_str_list_true in H. injection H as H.
  destruct readers as [|r [|r' readers]]; try done.
  injection H as ->. split; [|done].
  apply Forall_cons in Hall as [(rest & Hne & [H|H]) _].
  - by vm_compute in H.
  - apply (inj (String.app "group:")) in H. by subst.
Qed.

Section Values.

Context (claims : document_claims).

(** X13.  A [target_uri] in an output is a non-empty string without
    white space at either end (trimming it again changes nothing), on
    [create] and, when it is set, on [update]. *)
Theorem target_uri_trimmed_nonempty
    (authenticated_userid existing_target_uri : json) (groupid : string)
    (d : gmap string json) :
  valid d ->
  (uri_missing_or_blank d = false ->
   exists out u,
     create claims authenticated_userid (JObj d) = Ok out
     /\ out !! "target_uri" = Some (JStr u)
     /\ u <> "" /\ Py.strip u = u)
  /\ (blank_uri d = false ->
      exists out,
        update claims existing_target_uri (JStr groupid) (JObj d) = Ok out
        /\ forall v, out !! "target_uri" = Some v ->
             exists u, v = JStr u /\ u <> "" /\ Py.strip u = u).
Proof.
  intros Hv. split; intros Hu.
  - destruct (create_ok claims authenticated_userid _ Hv Hu)
      as (s & out & _ & Hne & Hout & Hpost).
    exists out, (Py.strip s). split; [done|]. split; [apply Hpost|].
    split; [done|]. apply strip_idem.
  - destruct (update_run claims existing_target_uri groupid _ Hv Hu)
      as (out & Hout & Hpost).
    exists out. split; [done|]. intros v.
    rewrite (up_target_uri _ _ _ _ _ Hpost). unfold trimmed_uri.
    unfold blank_uri in Hu.
    destruct (d !! "uri") as [[| | |s| |]|]; try done.
    intros [= <-]. exists (Py.strip s). split; [done|].
    split; [by destruct (Py.strip s)|]. apply strip_idem.
Qed.

(** X8.  The types of the output of [create]: [text] is a string,
    [tags] and [references] are lists of strings, [groupid], when set,
    is a string, and [target_selectors], when set, is a list of objects
    that each have a string [type]. *)
Theorem create_output_types (authenticated_userid : json) (d : gmap string json) :
  valid d ->
  uri_missing_or_blank d = false ->
  exists out,
    create claims authenticated_userid (JObj d) = Ok out
    /\ (exists t, out !! "text" = Some (JStr t))
    /\ (exists tags, out !! "tags" = Some tags /\ string_list tags)
    /\ (exists refs, out !! "references" = Some refs /\ string_list refs)
    /\ (forall g, out !! "groupid" = Some g -> exists s, g = JStr s)
    /\ (forall sel, out !! "target_selectors" = Some sel -> selector_list sel).
Proof.
  intros Hv Hu. pose proof (valid_typed _ Hv) as Hty.
  pose proof (valid_shaped _ Hv) as Hsh.
  destruct (create_ok claims authenticated_userid _ Hv Hu)
    as (s & out & _ & _ & Hout & Hpost).
  exists out. split; [done|].
  rewrite (cp_text _ _ _ _ _ Hpost), (cp_tags _ _ _ _ _ Hpost),
    (cp_references _ _ _ _ _ Hpost), (cp_groupid _ _ _ _ _ Hpost).
  unfold field_or. repeat split.
  - destruct (d !! "text") as [v|] eqn:Hd; [|by eexists].
    destruct (typed_text _ Hty _ Hd) as [t ->]. by eexists.
  - eexists; split; [done|].
    destruct (d !! "tags") as [v|] eqn:Hd; [by eapply typed_tags|by exists []].
  - eexists; split; [done|].
    destruct (d !! "references") as [v|] eqn:Hd;
      [by eapply typed_references|by exists []].
  - intros g. destruct (Py.truthy _); [done|]. intros [= <-].
    destruct (group_of_str _ Hsh) as [g ->]. by eexists.
  - intros sel Hsel. pose proof (cp_target_selectors _ _ _ _ _ Hpost) as Ht.
    destruct (d !! "target") as [t|] eqn:Hd; [|congruence].
    destruct Ht as (sel' & Hsel' & Ho). assert (sel' = sel) as -> by congruence.
    destruct (typed_target _ Hty _ Hd) as (l & -> & Hl).
    by eapply target_selectors_typed.
Qed.

(** X14.  [shared] is true only for a non-empty group id: the schema
    wants something after "group:" in every reader, so no valid
    [permissions] matches the empty group. *)
Theorem shared_needs_nonempty_group
    (authenticated_userid existing_target_uri : json) (groupid : string)
    (d : gmap string json) :
  valid d ->
  (uri_missing_or_blank d = false ->
   exists out,
     create claims authenticated_userid (JObj d) = Ok out
     /\ (out !! "shared" = Some (JBool true) ->
         exists g, group_of d = JStr g /\ g <> ""))
  /\ (blank_uri d = false ->
      exists out,
        update claims existing_target_uri (JStr groupid) (JObj d) = Ok out
        /\ (out !! "shared" = Some (JBool true) -> groupid <> "")).
Proof.
  intros Hv. pose proof (valid_shaped _ Hv) as Hsh. split; intros Hu.
  - destruct (create_ok claims authenticated_userid _ Hv Hu)
      as (s & out & _ & _ & Hout & Hpost).
    exists out. split; [done|].
    destruct (cp_shared _ _ _ _ _ Hpost) as (b & -> & Hb).
    intros [= ->]. destruct (d !! "permissions") as [p|] eqn:Hp; [|done].
    destruct (permissions_readers _ _ Hv Hp) as (p' & readers & -> & Hr & Hall).
    destruct (group_of_str _ Hsh) as [g Hg]. rewrite Hg in Hb.
    exists g. split; [done|]. by eapply shared_true_group.
  - destruct (update_run claims existing_target_uri groupid _ Hv Hu)
      as (out & Hout & Hpost).
    exists out. split; [done|].
    pose proof (up_shared _ _ _ _ _ Hpost) as Hs.
    destruct (d !! "permissions") as [p|] eqn:Hp; [|congruence].
    destruct Hs as (b & Hb & ->). intros [= ->].
    destruct (permissions_readers _ _ Hv Hp) as (p' & readers & -> & Hr & Hall).
    by eapply shared_true_group.
Qed.

(** X15.  On one payload [update] and [create] agree on [target_uri]
    and [target_selectors], on [text], [tags] and [document] when the
    client sent them, and on [shared] when the group id of the stored
    annotation is the payload's group. *)
Theorem update_agrees_with_create
    (authenticated_userid existing_target_uri : json) (groupid : string)
    (d : gmap string json) :
  valid d ->
  uri_missing_or_blank d = false ->
  exists created updated,
    create claims authenticated_userid (JObj d) = Ok created
    /\ update claims existing_target_uri (JStr groupid) (JObj d) = Ok updated
    /\ updated !! "target_uri" = created !! "target_uri"
    /\ updated !! "target_selectors" = created !! "target_selectors"
    /\ (forall k, k ∈ ["text"; "tags"; "document"] -> is_Some (d !! k) ->
                  updated !! k = created !! k)
    /\ (is_Some (d !! "permissions") -> group_of d = JStr groupid ->
        updated !! "shared" = created !! "shared").
Proof.
  intros Hv Hu.
  destruct (create_ok claims authenticated_userid _ Hv Hu)
    as (s & created & Hs & Hne & Hc & Hpc).
  assert (blank_uri d = false) as Hb.
  { unfold blank_uri. rewrite Hs. by destruct (Py.strip s). }
  destruct (update_run claims existing_target_uri groupid _ Hv Hb)
    as (updated & Hup & Hpu).
  exists created, updated. split; [done|]. split; [done|].
  assert (trimmed_uri d = Some (Py.strip s)) as Ht
    by (unfold trimmed_uri; by rewrite Hs).
  repeat split.
  - by rewrite (up_target_uri _ _ _ _ _ Hpu), (cp_target_uri _ _ _ _ _ Hpc), Ht.
  - pose proof (up_target_selectors _ _ _ _ _ Hpu) as H1.
    pose proof (cp_target_selectors _ _ _ _ _ Hpc) as H2.
    destruct (d !! "target"); [|congruence].
    destruct H1 as (? & ? & ->), H2 as (? & ? & ->). congruence.
  - intros k Hk [v Hv']. rewrite !elem_of_cons, elem_of_nil in Hk.
    destruct Hk as [->|[->|[->|[]]]].
    + rewrite (up_text _ _ _ _ _ Hpu), (cp_text _ _ _ _ _ Hpc).
      unfold field_or. by rewrite Hv'.
    + rewrite (up_tags _ _ _ _ _ Hpu), (cp_tags _ _ _ _ _ Hpc).
      unfold field_or. by rewrite Hv'.
    + rewrite (up_document _ _ _ _ _ Hpu), (cp_document _ _ _ _ _ Hpc).
      unfold field_or. by rewrite Hv', Ht.
  - intros [p Hp] Hg.
    pose proof (up_shared _ _ _ _ _ Hpu) as H1.
    destruct (cp_shared _ _ _ _ _ Hpc) as (b & -> & H2).
    rewrite Hp in H1, H2. rewrite Hg in H2.
    destruct H1 as (b' & ? & ->). congruence.
Qed.

End Values.

(** X17.  The schema requires no top-level field: the empty object is
    valid, and a valid payload stays valid when any of its fields is
    removed.  That a created annotation has a [uri] is the pipeline's
    check, not the schema's. *)
Theorem schema_requires_no_field (d : gmap string json) (k : string) :
  valid ∅ /\ (valid d -> valid (delete k d)).
Proof. split; [by vm_compute | apply valid_delete]. Qed.

(** X18.  The schema looks at [document], [group], [permissions],
    [references], [tags], [target], [text] and [uri] only: two objects
    that agree on these eight keys are both accepted or both
    rejected. *)
Theorem schema_depends_on_its_keys (d d' : gmap string json) :
  (forall k, k ∈ schema_keys -> d' !! k = d !! k) ->
  AnnotationSchema.schema (JObj d') = AnnotationSchema.schema (JObj d).
Proof. apply schema_agree. Qed.

Lemma enum_spec (l : list string) (v : json) :
  Schema.enum l v = true <-> v ∈ JStr <$> l.
Proof.
  unfold Schema.enum. induction l as [|s l IH]; cbn [existsb fmap list_fmap].
  - split; [done|]. by intros ?%elem_of_nil.
  - rewrite orb_true_iff, IH, elem_of_cons. apply or_iff_compat_r.
    destruct v; cbn; try (split; [done|by intros [=]]).
    rewrite bool_decide_eq_true. split; [by intros ->|by intros [= ->]].
Qed.

Lemma property_string (k : string) (d : gmap string json) :
  Schema.property k Schema.type_string (JObj d) = true
  <-> forall v, d !! k = Some v -> exists s, v = JStr s.
Proof.
  unfold Schema.property. destruct (d !! k) as [x|]; [|by split].
  split.
  - intros H v [= <-]. by apply type_string_inv.
  - intros H. by destruct (H x eq_refl) as [s ->].
Qed.

Lemma property_string_enum (k : string) (l : list string) (d : gmap string json) :
  Schema.property k (Schema.all_of [Schema.type_string; Schema.enum l]) (JObj d)
  = true
  <-> forall v, d !! k = Some v -> v ∈ JStr <$> l.
Proof.
  unfold Schema.property, Schema.all_of. cbn [forallb].
  destruct (d !! k) as [x|]; [|by split].
  rewrite !andb_true_iff, enum_spec. split.
  - by intros (_ & H & _) v [= <-].
  - intros H. specialize (H x eq_refl). split; [|done].
    apply list_elem_of_fmap in H as (s & -> & _). done.
Qed.

(** X19.  [SearchParamsSchema] accepts an object exactly when each of
    its fifteen known parameters that is present is a string, [sort] is
    one of created, updated, group, id, user and [order] is asc or desc;
    so a [limit] or [offset] given as a number is rejected, and unknown
    parameters are never looked at. *)
Theorem search_params_objects (d : gmap string json) :
  SearchParamsSchema.schema (JObj d) = true
  <-> (forall k v, k ∈ search_keys -> d !! k = Some v -> exists s, v = JStr s)
      /\ (forall v, d !! "sort" = Some v ->
            v ∈ JStr <$> ["created"; "updated"; "group"; "id"; "user"])
      /\ (forall v, d !! "order" = Some v -> v ∈ JStr <$> ["asc"; "desc"]).
Proof.
  unfold SearchParamsSchema.schema.
  unfold Schema.all_of at 1. cbn [forallb].
  rewrite !andb_true_iff, !property_string, !property_string_enum.
  split.
  - intros (H1 & H2 & H3 & H4 & H5 & H6 & H7 & H8 & H9 & H10 & H11 & H12
            & H13 & H14 & H15 & _).
    split; [|by split].
    intros k v Hk Hd. unfold search_keys in Hk.
    rewrite !elem_of_cons, elem_of_nil in Hk.
    destruct Hk as [->|[->|[->|[->|[->|[->|[->|[->|[->|[->|[->|[->|[->|[->|[->|[]]]]]]]]]]]]]]]];
      eauto.
    + apply H2, list_elem_of_fmap in Hd as (s & -> & _). by exists s.
    + apply H4, list_elem_of_fmap in Hd as (s & -> & _). by exists s.
  - intros (Hs & Hsort & Horder).
    repeat split; try done; intros v; apply Hs; unfold search_keys; mem.
Qed.

(** X20.  With its ['type': 'object'] commented out,
    [SearchParamsSchema] accepts every value that is not an object,
    where [AnnotationSchema] rejects every such value. *)
Theorem search_params_accept_non_objects (data : json) :
  not_object data ->
  SearchParamsSchema.schema data = true
  /\ AnnotationSchema.schema data = false.
Proof. by destruct data. Qed.

Section Projection.

Context (claims : document_claims).

(** X9.  [create] always sets [document]: the two projections of the
    document-claims functions, applied to the [document] of the payload
    (the empty object when there is none) with the trimmed [uri] as
    claimant. *)
Theorem create_document_claimant (authenticated_userid : json)
    (d : gmap string json) (s : string) :
  valid d ->
  d !! "uri" = Some (JStr s) ->
  Py.strip s <> "" ->
  exists out,
    create claims authenticated_userid (JObj d) = Ok out
    /\ out !! "document"
       = Some (JObj
           {[ "document_uri_dicts" :=
                document_uris_from_data claims
                  (default (JObj ∅) (d !! "document")) (JStr (Py.strip s));
              "document_meta_dicts" :=
                document_metas_from_data claims
                  (default (JObj ∅) (d !! "document")) (JStr (Py.strip s)) ]}).
Proof.
  intros Hv Hs Hne. pose proof (valid_schema d) as [Hsch _].
  specialize (Hsch Hv).
  destruct (create_run claims authenticated_userid _ _ Hv Hs Hne)
    as (out & Hout & Hpost).
  exists out. split; [done|]. rewrite (cp_document _ _ _ _ _ Hpost).
  unfold _document, field_or. do 2 f_equal.
  destruct (d !! "document") as [doc|] eqn:Hd; cbn [default].
  - assert (exists m, doc = JObj m) as [m ->].
    { unfold AnnotationSchema.schema, Schema.all_of in Hsch.
      cbn [forallb] in Hsch. rewrite !andb_true_iff in Hsch.
      destruct Hsch as (_ & Hdoc & _).
      apply (property_inv _ _ _ _ Hdoc) in Hd.
      unfold AnnotationSchema.document, Schema.all_of in Hd.
      cbn [forallb] in Hd. apply andb_true_iff in Hd as [Ho _].
      by apply type_object_inv. }
    cbn [Py.truthy]. case_bool_decide as Hm; cbn [negb]; [by subst|done].
  - done.
Qed.

End Projection.

(** ** The further properties on the sample payloads *)

Lemma non_object_payload_rejected_witness :
  not_object (JArr [JObj example_payload])
  /\ create example_claims example_user (JArr [JObj example_payload])
     = Raise SchemaValidationError
  /\ update example_claims example_stored_uri (JStr "abc")
            (JArr [JObj example_payload])
     = Raise SchemaValidationError.
Proof.
  split; [exact I|].
  exact (non_object_payload_rejected example_claims example_user
           example_stored_uri (JStr "abc") (JArr [JObj example_payload]) I).
Defined.

Lemma protected_fields_ignored_witness :
  "id" ∈ protected_fields
  /\ create example_claims example_user
            (JObj (<["id" := JStr "forged"]> example_payload))
     = create example_claims example_user (JObj (delete "id" example_payload)).
Proof.
  assert ("id" ∈ protected_fields) as Hf by (by repeat constructor).
  split; [exact Hf|].
  exact (proj1 (protected_fields_ignored example_claims example_user
                  example_stored_uri (JStr "abc") example_payload "id"
                  (JStr "forged") Hf)).
Defined.

Lemma create_userid_from_request_witness :
  valid example_payload
  /\ uri_missing_or_blank example_payload = false
  /\ exists out extra,
       create example_claims example_user (JObj example_payload) = Ok out
       /\ out !! "userid" = Some example_user
       /\ out !! "extra" = Some (JObj extra)
       /\ extra !! "userid" = Some (JStr "acct:mallory@example.com").
Proof.
  assert (valid example_payload) as Hv by (by vm_compute).
  assert (uri_missing_or_blank example_payload = false) as Hu by (by vm_compute).
  split; [exact Hv|]. split; [exact Hu|].
  destruct (create_userid_from_request example_claims example_user
              example_payload Hv Hu)
    as (out & extra & Hout & Huser & Hextra & Hx & _).
  exists out, extra. split; [exact Hout|]. split; [exact Huser|].
  split; [exact Hextra | exact Hx].
Defined.

Lemma create_defaults_witness :
  valid example_payload
  /\ uri_missing_or_blank example_payload = false
  /\ exists out,
       create example_claims example_user (JObj example_payload) = Ok out
       /\ out !! "text" = Some (JStr "a note")
       /\ out !! "tags" = Some (JArr []).
Proof.
  assert (valid example_payload) as Hv by (by vm_compute).
  assert (uri_missing_or_blank example_payload = false) as Hu by (by vm_compute).
  split; [exact Hv|]. split; [exact Hu|].
  destruct (create_defaults example_claims example_user example_payload Hv Hu)
    as (out & Hout & Htext & Htags & _).
  exists out. split; [exact Hout|]. split; [exact Htext | exact Htags].
Defined.

Lemma create_output_keys_witness :
  valid example_reply
  /\ uri_missing_or_blank example_reply = false
  /\ exists out,
       create example_claims example_user (JObj example_reply) = Ok out
       /\ is_Some (out !! "target_selectors")
       /\ ~ is_Some (out !! "groupid").
Proof.
  assert (valid example_reply) as Hv by (by vm_compute).
  assert (uri_missing_or_blank example_reply = false) as Hu by (by vm_compute).
  split; [exact Hv|]. split; [exact Hu|].
  destruct (create_output_keys example_claims example_user example_reply Hv Hu)
    as (out & Hout & Hkeys).
  exists out. split; [exact Hout|]. split.
  - apply Hkeys. right. right. split; [reflexivity|].
    apply (bool_decide_unpack _). by vm_compute.
  - intros [H|[[_ H]|[H _]]]%Hkeys; [|by vm_compute in H|discriminate H].
    apply (bool_decide_pack _) in H. by vm_compute in H.
Defined.

Lemma empty_document_create_update_witness :
  valid example_with_empty_document
  /\ example_with_empty_document !! "document" = Some (JObj ∅)
  /\ create example_claims example_user (JObj example_with_empty_document)
     = create example_claims example_user
              (JObj (delete "document" example_with_empty_document)).
Proof.
  assert (valid example_with_empty_document) as Hv by (by vm_compute).
  split; [exact Hv|]. split; [reflexivity|].
  exact (proj1 (empty_document_create_update example_claims example_user
                  example_stored_uri "abc" example_with_empty_document
                  Hv eq_refl)).
Defined.

Lemma update_copies_what_was_sent_witness :
  valid example_payload
  /\ blank_uri example_payload = false
  /\ exists out,
       update example_claims example_stored_uri (JStr "abc")
              (JObj example_payload) = Ok out
       /\ out !! "text" = Some (JStr "a note")
       /\ out !! "tags" = None.
Proof.
  assert (valid example_payload) as Hv by (by vm_compute).
  assert (blank_uri example_payload = false) as Hu by (by vm_compute).
  split; [exact Hv|]. split; [exact Hu|].
  destruct (update_copies_what_was_sent example_claims example_stored_uri
              "abc" example_payload Hv Hu)
    as (out & Hout & Htext & Htags & _).
  exists out. split; [exact Hout|]. split; [exact Htext | exact Htags].
Defined.

Lemma update_output_keys_witness :
  valid example_without_uri
  /\ blank_uri example_without_uri = false
  /\ exists out,
       update example_claims example_stored_uri (JStr "abc")
              (JObj example_without_uri) = Ok out
       /\ is_Some (out !! "text")
       /\ ~ is_Some (out !! "target_uri").
Proof.
  assert (valid example_without_uri) as Hv by (by vm_compute).
  assert (blank_uri example_without_uri = false) as Hu by (by vm_compute).
  split; [exact Hv|]. split; [exact Hu|].
  destruct (update_output_keys example_claims example_stored_uri "abc"
              example_without_uri Hv Hu)
    as (out & Hout & Hkeys).
  exists out. split; [exact Hout|]. split.
  - apply Hkeys. do 4 right. split; [by repeat constructor|].
    apply (bool_decide_unpack _). by vm_compute.
  - intros [H|[[_ H]|[[H _]|[[H _]|[H _]]]]]%Hkeys;
      [discriminate H| |discriminate H|discriminate H|];
      apply (bool_decide_pack _) in H; by vm_compute in H.
Defined.

Lemma target_uri_trimmed_nonempty_witness :
  valid example_padded_uri
  /\ uri_missing_or_blank example_padded_uri = false
  /\ exists out u,
       create example_claims example_user (JObj example_padded_uri) = Ok out
       /\ out !! "target_uri" = Some (JStr u)
       /\ u <> "" /\ Py.strip u = u.
Proof.
  assert (valid example_padded_uri) as Hv by (by vm_compute).
  assert (uri_missing_or_blank example_padded_uri = false) as Hu
    by (by vm_compute).
  split; [exact Hv|]. split; [exact Hu|].
  exact (proj1 (target_uri_trimmed_nonempty example_claims example_user
                  example_stored_uri "abc" example_padded_uri Hv) Hu).
Defined.

Lemma create_output_types_witness :
  valid example_payload
  /\ uri_missing_or_blank example_payload = false
  /\ exists out,
       create example_claims example_user (JObj example_payload) = Ok out
       /\ forall sel, out !! "target_selectors" = Some sel -> selector_list sel.
Proof.
  assert (valid example_payload) as Hv by (by vm_compute).
  assert (uri_missing_or_blank example_payload = false) as Hu by (by vm_compute).
  split; [exact Hv|]. split; [exact Hu|].
  destruct (create_output_types example_claims example_user example_payload
              Hv Hu)
    as (out & Hout & _ & _ & _ & _ & Hsel).
  exists out. split; [exact Hout | exact Hsel].
Defined.

Lemma shared_needs_nonempty_group_witness :
  valid example_payload
  /\ blank_uri example_payload = false
  /\ exists out,
       update example_claims example_stored_uri (JStr "") (JObj example_payload)
       = Ok out
       /\ out !! "shared" <> Some (JBool true).
Proof.
  assert (valid example_payload) as Hv by (by vm_compute).
  assert (blank_uri example_payload = false) as Hu by (by vm_compute).
  split; [exact Hv|]. split; [exact Hu|].
  destruct (proj2 (shared_needs_nonempty_group example_claims example_user
                     example_stored_uri "" example_payload Hv) Hu)
    as (out & Hout & Hshared).
  exists out. split; [exact Hout|]. intros H. by apply (Hshared H).
Defined.

Lemma update_agrees_with_create_witness :
  valid example_payload
  /\ uri_missing_or_blank example_payload = false
  /\ exists created updated,
       create example_claims example_user (JObj example_payload) = Ok created
       /\ update example_claims example_stored_uri (JStr "abc")
                 (JObj example_payload) = Ok updated
       /\ updated !! "target_uri" = created !! "target_uri"
       /\ updated !! "shared" = created !! "shared".
Proof.
  assert (valid example_payload) as Hv by (by vm_compute).
  assert (uri_missing_or_blank example_payload = false) as Hu by (by vm_compute).
  split; [exact Hv|]. split; [exact Hu|].
  destruct (update_agrees_with_create example_claims example_user
              example_stored_uri "abc" example_payload Hv Hu)
    as (created & updated & Hc & Hup & Huri & _ & _ & Hshared).
  exists created, updated. split; [exact Hc|]. split; [exact Hup|].
  split; [exact Huri|]. apply Hshared; [|by vm_compute].
  apply (bool_decide_unpack _). by vm_compute.
Defined.

Lemma schema_depends_on_its_keys_witness :
  AnnotationSchema.schema (JObj (<["colour" := JNum 7]> example_payload))
  = AnnotationSchema.schema (JObj example_payload).
Proof.
  apply schema_depends_on_its_keys. intros k Hk.
  apply lookup_insert_ne. intros <-.
  apply (bool_decide_pack _) in Hk. by vm_compute in Hk.
Defined.

Lemma valid_permissions_readers_witness :
  valid example_payload
  /\ example_payload !! "permissions" = Some (JObj example_permissions)
  /\ exists p readers,
       JObj example_permissions = JObj p
       /\ p !! "read" = Some (JArr (JStr <$> readers))
       /\ Forall principal readers.
Proof.
  assert (valid example_payload) as Hv by (by vm_compute).
  split; [exact Hv|]. split; [reflexivity|].
  exact (valid_permissions_readers example_payload (JObj example_permissions)
           Hv eq_refl).
Defined.

Lemma search_params_accept_non_objects_witness :
  not_object (JStr "sort=nonsense")
  /\ SearchParamsSchema.schema (JStr "sort=nonsense") = true
  /\ AnnotationSchema.schema (JStr "sort=nonsense") = false.
Proof.
  split; [exact I|].
  exact (search_params_accept_non_objects (JStr "sort=nonsense") I).
Defined.

Lemma create_document_claimant_witness :
  valid example_payload
  /\ exists out,
       create example_claims example_user (JObj example_payload) = Ok out
       /\ out !! "document"
          = Some (JObj
              {[ "document_uri_dicts" := JArr [JStr "http://example.com/page"];
                 "document_meta_dicts" :=
                   JArr [JObj {["title" := JArr [JStr "A page"]]}] ]}).
Proof.
  assert (valid example_payload) as Hv by (by vm_compute).
  split; [exact Hv|].
  destruct (create_document_claimant example_claims example_user
              example_payload "  http://example.com/page " Hv eq_refl)
    as (out & Hout & Hdoc); [by vm_compute|].
  exists out. split; [exact Hout|]. rewrite Hdoc. by vm_compute.
Defined.
